(** * flex_eav.eav_validator: validator protocol, registry and built-in validators

    A shallow embedding of [src/flex_eav/eav_validator.py].

    Conventions of the embedding.
    - Python [str] values are Rocq strings over ASCII characters; [str.lower],
      [str.strip] and [str.split] are written out on them.
    - Python objects that reach the validators as untyped configuration are
      values of [pyval]; a [dict] is an association list in insertion order.
    - A call that may raise returns a [result]: [Return v] or [Raise e].
    - A [map] object is a one-shot iterator; it is modelled by the items it
      has not yielded yet, and every consumer returns the iterator it leaves.
    - Python [float] is IEEE-754 binary64, modelled with [spec_float]
      (53 bits of precision, [emax = 1024]).
    - [gettext_lazy] is the identity (the untranslated message). *)

From Stdlib Require Import String Ascii List ZArith QArith Bool Lia.
From Stdlib Require Import Floats.SpecFloat.
Import ListNotations.

Local Open Scope Z_scope.
Local Open Scope string_scope.
Local Open Scope list_scope.

Set Implicit Arguments.
Set Warnings "-register-all".

(** ** Strings *)

(** [str.lower] on one ASCII character. *)
Definition lower_ascii (c : ascii) : ascii :=
  let n := nat_of_ascii c in
  if andb (Nat.leb 65 n) (Nat.leb n 90) then ascii_of_nat (n + 32) else c.

(** [str.lower]. *)
Fixpoint lower (s : string) : string :=
  match s with
  | EmptyString => EmptyString
  | String c s' => String (lower_ascii c) (lower s')
  end.

(** [str.isspace] on one ASCII character: TAB, LF, VT, FF, CR, FS, GS, RS, US
    and SPACE. *)
Definition is_space (c : ascii) : bool :=
  let n := nat_of_ascii c in
  orb (andb (Nat.leb 9 n) (Nat.leb n 13))
      (orb (andb (Nat.leb 28 n) (Nat.leb n 31)) (Nat.eqb n 32)).

Definition is_empty (s : string) : bool :=
  match s with EmptyString => true | String _ _ => false end.

(** [str.lstrip()]. *)
Fixpoint lstrip (s : string) : string :=
  match s with
  | EmptyString => EmptyString
  | String c s' => if is_space c then lstrip s' else s
  end.

(** [str.rstrip()]. *)
Fixpoint rstrip (s : string) : string :=
  match s with
  | EmptyString => EmptyString
  | String c s' =>
      let r := rstrip s' in
      if andb (is_space c) (is_empty r) then EmptyString else String c r
  end.

(** [str.strip()]. *)
Definition strip (s : string) : string := rstrip (lstrip s).

(** [s.split(sep)] for a one-character separator: the pieces between the
    separators, empty pieces included; never the empty list. *)
Fixpoint split (sep : ascii) (s : string) : list string :=
  match s with
  | EmptyString => [EmptyString]
  | String c s' =>
      if Ascii.eqb c sep then EmptyString :: split sep s'
      else match split sep s' with
           | piece :: rest => String c piece :: rest
           | [] => [String c EmptyString]
           end
  end.

(** [sep.join(pieces)] on a list of strings. *)
Fixpoint join (sep : string) (pieces : list string) : string :=
  match pieces with
  | [] => EmptyString
  | [p] => p
  | p :: rest => p ++ sep ++ join sep rest
  end.

(** ** Python values *)

(** The objects a configuration mapping can hold. *)
Inductive pyval : Type :=
| PyNone
| PyBool (b : bool)
| PyInt (z : Z)
| PyFloat (f : spec_float)
| PyStr (s : string)
| PyList (items : list pyval)
| PyDict (entries : list (string * pyval)).

(** Truth value of an object ([bool(v)]). *)
Definition truthy (v : pyval) : bool :=
  match v with
  | PyNone => false
  | PyBool b => b
  | PyInt z => negb (Z.eqb z 0)
  | PyFloat (S754_zero _) => false
  | PyFloat _ => true
  | PyStr s => negb (is_empty s)
  | PyList l => match l with [] => false | _ => true end
  | PyDict d => match d with [] => false | _ => true end
  end.

Definition is_none (v : pyval) : bool :=
  match v with PyNone => true | _ => false end.

(** [isinstance(v, str)] and [isinstance(v, list)]. *)
Definition isinstance_str (v : pyval) : bool :=
  match v with PyStr _ => true | _ => false end.

Definition isinstance_list (v : pyval) : bool :=
  match v with PyList _ => true | _ => false end.

(** ** Dictionaries

    A [dict] with string keys, in insertion order.  Assigning to a key that is
    present replaces its value in place; a new key goes to the end. *)
Section Dict.
Variable V : Type.

Definition dict := list (string * V).

Definition dict_keys (d : dict) : list string := List.map fst d.

(** [d.get(k)]: [None] stands for Python's [None] default. *)
Fixpoint dict_get (d : dict) (k : string) : option V :=
  match d with
  | [] => None
  | (k', v) :: d' => if String.eqb k' k then Some v else dict_get d' k
  end.

(** [d[k] = v]. *)
Fixpoint dict_set (d : dict) (k : string) (v : V) : dict :=
  match d with
  | [] => [(k, v)]
  | (k', v') :: d' =>
      if String.eqb k' k then (k', v) :: d' else (k', v') :: dict_set d' k v
  end.

(** [k in d]. *)
Definition dict_mem (d : dict) (k : string) : bool :=
  match dict_get d k with Some _ => true | None => false end.
End Dict.

Arguments dict_keys {V} d.
Arguments dict_get {V} d k.
Arguments dict_set {V} d k v.
Arguments dict_mem {V} d k.

(** A keyword-argument mapping ([**kwargs]). *)
Definition kwargs_t := dict pyval.

(** [kwargs.get(k)] as an object: the default is [None]. *)
Definition kwargs_get (kw : kwargs_t) (k : string) : pyval :=
  match dict_get kw k with Some v => v | None => PyNone end.

(** [kwargs.get(k, default)]. *)
Definition kwargs_get_default (kw : kwargs_t) (k : string) (default : pyval) : pyval :=
  match dict_get kw k with Some v => v | None => default end.

(** ** Exceptions and results *)

Inductive exn_class : Type :=
| KeyError_c | AttributeError_c | ValueError_c | TypeError_c
| OverflowError_c | ReError_c | ValidationError_c.

(** The exceptions the module raises or lets through.
    - [ValidationError msg params] is django's [ValidationError(_(msg) % params)]:
      the message template with its substitution parameters.
    - [ValueError_invalid_kwargs name valid] is the [ValueError] of
      [initialize_from_kwargs]; [valid] is the set printed in its message.
    - [ValueError_float s] is what [float(s)] raises on a string it cannot
      convert; [ValueError_int_nan] and [OverflowError] are what [int(f)]
      raises on a NaN and on an infinity.
    - [ReError] is [re.error], raised for a pattern that does not compile. *)
Inductive exn : Type :=
| ValidationError (message : string) (params : list pyval)
| ValueError_invalid_kwargs (cls_name : string) (valid_kwargs : list string)
| ValueError_float (arg : string)
| ValueError_int_nan
| OverflowError
| ReError
| AttributeError
| TypeError
| KeyError.

Definition class_of (e : exn) : exn_class :=
  match e with
  | ValidationError _ _ => ValidationError_c
  | ValueError_invalid_kwargs _ _ => ValueError_c
  | ValueError_float _ => ValueError_c
  | ValueError_int_nan => ValueError_c
  | OverflowError => OverflowError_c
  | ReError => ReError_c
  | AttributeError => AttributeError_c
  | TypeError => TypeError_c
  | KeyError => KeyError_c
  end.

(** [isinstance(e, ValueError)].  django's [ValidationError] derives from
    [Exception] directly, and [OverflowError] from [ArithmeticError]: neither
    is a [ValueError]. *)
Definition is_ValueError (e : exn) : bool :=
  match class_of e with ValueError_c => true | _ => false end.

Inductive result (A : Type) : Type :=
| Return (a : A)
| Raise (e : exn).

Arguments Return {A} a.
Arguments Raise {A} e.

Definition bind {A B : Type} (r : result A) (k : A -> result B) : result B :=
  match r with
  | Return a => k a
  | Raise e => Raise e
  end.

Declare Scope py_scope.
Delimit Scope py_scope with py.
Notation "x <- c ;; k" := (bind c (fun x => k))
  (at level 61, c at next level, right associativity) : py_scope.
Notation "c ;;; k" := (bind c (fun _ => k))
  (at level 61, right associativity) : py_scope.
Local Open Scope py_scope.

(** ** Calls with keyword arguments *)

(** The signature of a method: its named parameters in order (the first is
    the receiver, [self] or [cls]) and the name of its [**] parameter, if it
    has one.  No method of the module gives a parameter a default. *)
Record signature : Type := {
  sig_params : list string;
  sig_var_keyword : option string
}.

(** [inspect.signature(f).parameters], in declaration order. *)
Definition parameters (sig : signature) : list string :=
  sig_params sig ++
  match sig_var_keyword sig with Some k => [k] | None => [] end.

Definition mem_string (k : string) (l : list string) : bool :=
  existsb (String.eqb k) l.

(** Binding of [f(receiver, **kw)]: the receiver fills the first parameter;
    every other named parameter must be a key of [kw]; a key that names the
    receiver's parameter, or that names no parameter when there is no [**]
    parameter, is a [TypeError].  Returns the named arguments and the mapping
    collected by the [**] parameter. *)
Definition bind_arguments (sig : signature) (kw : kwargs_t)
  : result (kwargs_t * kwargs_t) :=
  match sig_params sig with
  | [] => Raise TypeError
  | receiver :: named =>
      if dict_mem kw receiver then Raise TypeError
      else if negb (forallb (dict_mem kw) named) then Raise TypeError
      else
        let extra := filter (fun kv => negb (mem_string (fst kv) named)) kw in
        match sig_var_keyword sig, extra with
        | None, _ :: _ => Raise TypeError
        | _, _ => Return (filter (fun kv => mem_string (fst kv) named) kw, extra)
        end
  end.

Definition py_call {A : Type} (sig : signature)
  (body : kwargs_t -> kwargs_t -> result A) (kw : kwargs_t) : result A :=
  args <- bind_arguments sig kw ;;
  body (fst args) (snd args).

(** [def m(self, **kwargs)] and [def m(cls, **kwargs)]. *)
Definition sig_self_kwargs : signature :=
  {| sig_params := ["self"]; sig_var_keyword := Some "kwargs" |}.

Definition sig_cls_kwargs : signature :=
  {| sig_params := ["cls"]; sig_var_keyword := Some "kwargs" |}.

(** ** ValidatorBase *)

(** A constructed validator with the attributes its [__init__] has set. *)
Inductive instance : Type :=
| RegexInstance (pattern : pyval)
| RangeInstance (min_value max_value : pyval)
| ChoiceInstance (choices : pyval)
| BooleanInstance
| MultipleChoiceInstance (choices : pyval).

(** A validator class: its attributes and the methods the base class calls
    on it.  [init_body] is the body of [__init__] on the bound arguments;
    [validate_kwargs_body] is the body of [validate_kwargs] on its
    [**kwargs]. *)
Record validator_class : Type := {
  cls_name : string;
  title : string;
  slug : string;
  get_kwargs_slug : string;
  init_signature : signature;
  init_body : kwargs_t -> kwargs_t -> result instance;
  validate_kwargs_body : kwargs_t -> result unit
}.

Module ValidatorBase.

(** [get_instance_kwargs(callable)]: the parameter names of [callable]. *)
Definition get_instance_kwargs (sig : signature) : list string :=
  parameters sig.

(** The default [__init__(self, **validator_kwargs)]. *)
Definition base_init_signature : signature :=
  {| sig_params := ["self"]; sig_var_keyword := Some "validator_kwargs" |}.

(** The default [__init__] body: [pass].  A subclass that sets nothing is
    told apart by its class alone; [BooleanValidator] is the only one. *)
Definition base_init_body (_ validator_kwargs : kwargs_t) : result instance :=
  Return BooleanInstance.

(** The default [validate_kwargs]: [pass]. *)
Definition base_validate_kwargs_body (kwargs : kwargs_t) : result unit :=
  Return tt.

(** The default [to_value]: the raw value unchanged. *)
Definition to_value (value : string) : result pyval := Return (PyStr value).

(** [cls.validate_kwargs(cls, **kwargs)]. *)
Definition call_validate_kwargs (cls : validator_class) (kwargs : kwargs_t)
  : result unit :=
  py_call sig_self_kwargs (fun _ kw => validate_kwargs_body cls kw) kwargs.

(** [cls( **kwargs)]. *)
Definition construct (cls : validator_class) (kwargs : kwargs_t)
  : result instance :=
  py_call (init_signature cls) (init_body cls) kwargs.

(** The exceptions [contextlib.suppress(KeyError, AttributeError,
    ValueError)] swallows. *)
Definition suppressed (e : exn) : bool :=
  match class_of e with
  | KeyError_c | AttributeError_c | ValueError_c => true
  | _ => false
  end.

(** [cls.initialize_from_kwargs( **kwargs)]. *)
Definition initialize_from_kwargs (cls : validator_class) (kwargs : kwargs_t)
  : result instance :=
  py_call sig_cls_kwargs
    (fun _ kwargs =>
       match (call_validate_kwargs cls kwargs ;;; construct cls kwargs) with
       | Return inst => Return inst
       | Raise e =>
           if suppressed e
           then Raise (ValueError_invalid_kwargs (cls_name cls)
                         (get_instance_kwargs (init_signature cls)))
           else Raise e
       end)
    kwargs.

(** [cls.get_kwargs_slug()]: the class's [slug]. *)
Definition base_get_kwargs_slug (slug : string) : string := slug.

End ValidatorBase.

(** ** ValidatorRegistry *)

Module ValidatorRegistry.

(** The class attribute [validators]. *)
Definition validators_t := dict validator_class.

Definition empty : validators_t := [].

(** [register(validator)]: stores the class under its slug.  The method has
    no [return] statement, so the call evaluates to Python's [None],
    written [None] here; [Some c] would be the class [c]. *)
Definition register (validator : validator_class) (validators : validators_t)
  : option validator_class * validators_t :=
  (None, dict_set validators (slug validator) validator).

(** [get_validator(slug)]: [validators.get(slug)]. *)
Definition get_validator (validators : validators_t) (slug : string)
  : option validator_class :=
  dict_get validators slug.

(** [get_choices()]. *)
Definition get_choices (validators : validators_t) : list (string * string) :=
  List.map (fun kv => (fst kv, title (snd kv))) validators.

End ValidatorRegistry.

(** ** Regular expressions

    The part of Python's [re] that is modelled: literal characters, [.], the
    anchors [^] and [$], the postfix operators [*], [+] and [?] with their
    lazy forms, and alternation with [|].  No flag is set: [^] holds at the
    start of the subject only, [$] at its end or before a final line feed, and
    [.] matches every character but the line feed. *)

Inductive regex : Type :=
| Void
| Eps
| Chr (c : ascii)
| Any
| Bol
| Eol
| Seq (r1 r2 : regex)
| Alt (r1 r2 : regex)
| Star (r : regex).

Definition newline : ascii := ascii_of_nat 10.

(** The item the parser has read last: nothing yet in this branch, a
    repeatable atom, an anchor, a repeated atom, or a repeated atom with the
    lazy marker. *)
Inductive last_item : Type :=
| NoItem
| Atom (r : regex)
| Anchor (r : regex)
| Repeat (r : regex)
| LazyRepeat (r : regex).

Definition push_item (cur : regex) (last : last_item) : regex :=
  match last with
  | NoItem => cur
  | Atom r | Anchor r | Repeat r | LazyRepeat r => Seq cur r
  end.

Definition close_branch (alts : option regex) (branch : regex) : regex :=
  match alts with
  | None => branch
  | Some a => Alt a branch
  end.

(** The characters with a meaning that the fragment leaves out. *)
Definition outside_fragment (c : ascii) : bool :=
  existsb (Ascii.eqb c) ["\"; "["; "]"; "("; ")"; "{"; "}"]%char.

(** [re.compile(pattern)] on the fragment.  [None]: the pattern is outside
    the fragment (also [*+], [++] and [?+], whose meaning changed between
    versions of Python).  [Some (Raise ReError)]: the pattern is rejected
    ("nothing to repeat", "multiple repeat"). *)
Fixpoint parse (s : string) (alts : option regex) (cur : regex)
  (last : last_item) : option (result regex) :=
  match s with
  | EmptyString => Some (Return (close_branch alts (push_item cur last)))
  | String c s' =>
      if outside_fragment c then None
      else if Ascii.eqb c "|" then
        parse s' (Some (close_branch alts (push_item cur last))) Eps NoItem
      else if Ascii.eqb c "^" then parse s' alts (push_item cur last) (Anchor Bol)
      else if Ascii.eqb c "$" then parse s' alts (push_item cur last) (Anchor Eol)
      else if Ascii.eqb c "." then parse s' alts (push_item cur last) (Atom Any)
      else if Ascii.eqb c "*" then
        match last with
        | Atom r => parse s' alts cur (Repeat (Star r))
        | _ => Some (Raise ReError)
        end
      else if Ascii.eqb c "+" then
        match last with
        | Atom r => parse s' alts cur (Repeat (Seq r (Star r)))
        | Repeat _ => None
        | _ => Some (Raise ReError)
        end
      else if Ascii.eqb c "?" then
        match last with
        | Atom r => parse s' alts cur (Repeat (Alt r Eps))
        | Repeat r => parse s' alts cur (LazyRepeat r)
        | _ => Some (Raise ReError)
        end
      else parse s' alts (push_item cur last) (Atom (Chr c))
  end.

Definition re_compile (pattern : string) : option (result regex) :=
  parse pattern None Eps NoItem.

(** [$] holds where the rest of the subject is empty or one final line feed. *)
Definition at_end (rest : string) : bool :=
  match rest with
  | EmptyString => true
  | String c EmptyString => Ascii.eqb c newline
  | _ => false
  end.

(** Can [r] match the empty string here?  [bol] tells whether the position
    is the start of the subject, [eol] whether [$] holds at it. *)
Fixpoint nullable (bol eol : bool) (r : regex) : bool :=
  match r with
  | Void => false
  | Eps => true
  | Chr _ => false
  | Any => false
  | Bol => bol
  | Eol => eol
  | Seq r1 r2 => andb (nullable bol eol r1) (nullable bol eol r2)
  | Alt r1 r2 => orb (nullable bol eol r1) (nullable bol eol r2)
  | Star _ => true
  end.

(** What is left of [r] to match once it has consumed [c] at a position
    described by [bol] and [eol]. *)
Fixpoint deriv (bol eol : bool) (c : ascii) (r : regex) : regex :=
  match r with
  | Void | Eps | Bol | Eol => Void
  | Chr a => if Ascii.eqb a c then Eps else Void
  | Any => if Ascii.eqb c newline then Void else Eps
  | Seq r1 r2 =>
      Alt (Seq (deriv bol eol c r1) r2)
          (if nullable bol eol r1 then deriv bol eol c r2 else Void)
  | Alt r1 r2 => Alt (deriv bol eol c r1) (deriv bol eol c r2)
  | Star r1 => Seq (deriv bol eol c r1) (Star r1)
  end.

(** Does [r] match some prefix of [s], [s] being what is left of the
    subject? *)
Fixpoint match_here (bol : bool) (r : regex) (s : string) : bool :=
  orb (nullable bol (at_end s) r)
      match s with
      | EmptyString => false
      | String c s' => match_here false (deriv bol (at_end s) c r) s'
      end.

(** Does [r] match exactly [w], [rest] being what follows [w] in the
    subject?  ([re.fullmatch] is this with an empty [rest].) *)
Fixpoint match_exact (bol : bool) (r : regex) (w rest : string) : bool :=
  match w with
  | EmptyString => nullable bol (at_end rest) r
  | String c w' => match_exact false (deriv bol (at_end (w ++ rest)) c r) w' rest
  end.

(** [re.match(pattern, string)] as a truth value: a match object is truthy,
    [None] is not.  The match must begin at the start of [subject] and may
    end anywhere. *)
Definition re_match (pattern subject : string) : option (result bool) :=
  match re_compile pattern with
  | None => None
  | Some (Raise e) => Some (Raise e)
  | Some (Return r) => Some (Return (match_here true r subject))
  end.

(** What it means for [r] to match exactly [w], when [rest] follows [w] in
    the subject and [bol] tells whether [w] begins at the start of the
    subject. *)
Inductive Matches : regex -> bool -> string -> string -> Prop :=
| MEps bol rest : Matches Eps bol "" rest
| MChr c bol rest : Matches (Chr c) bol (String c "") rest
| MAny c bol rest : c <> newline -> Matches Any bol (String c "") rest
| MBol rest : Matches Bol true "" rest
| MEol bol rest : at_end rest = true -> Matches Eol bol "" rest
| MSeq r1 r2 bol w1 w2 rest :
    Matches r1 bol w1 (w2 ++ rest) ->
    Matches r2 (andb bol (is_empty w1)) w2 rest ->
    Matches (Seq r1 r2) bol (w1 ++ w2) rest
| MAltL r1 r2 bol w rest : Matches r1 bol w rest -> Matches (Alt r1 r2) bol w rest
| MAltR r1 r2 bol w rest : Matches r2 bol w rest -> Matches (Alt r1 r2) bol w rest
| MStarNil r bol rest : Matches (Star r) bol "" rest
| MStarCons r bol w1 w2 rest :
    Matches r bol w1 (w2 ++ rest) ->
    Matches (Star r) (andb bol (is_empty w1)) w2 rest ->
    Matches (Star r) bol (w1 ++ w2) rest.

(** ** Floats

    [float] is binary64.  [float(s)] reads a decimal numeral and rounds it to
    the nearest float, ties to even. *)

Definition prec : Z := 53.
Definition emax : Z := 1024.

Definition is_digit (c : ascii) : bool :=
  let n := nat_of_ascii c in andb (Nat.leb 48 n) (Nat.leb n 57).

Definition digit_value (c : ascii) : Z := Z.of_nat (nat_of_ascii c - 48).

(** The scanner's view of a numeral: the digits read so far as an integer,
    how many digits were read, and the rest of the input. *)
Record scanned : Type := {
  sc_value : Z;
  sc_count : Z;
  sc_rest : string
}.

(** Digits after the first one of a run; one underscore is allowed between
    two digits. *)
Fixpoint more_digits (s : string) (acc : Z) (n : Z) : scanned :=
  match s with
  | EmptyString => {| sc_value := acc; sc_count := n; sc_rest := s |}
  | String c s' =>
      if is_digit c then more_digits s' (10 * acc + digit_value c) (n + 1)
      else if Ascii.eqb c "_" then
        match s' with
        | String d s'' =>
            if is_digit d
            then more_digits s'' (10 * acc + digit_value d) (n + 1)
            else {| sc_value := acc; sc_count := n; sc_rest := s |}
        | EmptyString => {| sc_value := acc; sc_count := n; sc_rest := s |}
        end
      else {| sc_value := acc; sc_count := n; sc_rest := s |}
  end.

(** A run of digits, continuing the integer [acc]; [None] when [s] does not
    begin with a digit. *)
Definition digit_part (s : string) (acc : Z) : option scanned :=
  match s with
  | String c s' =>
      if is_digit c then Some (more_digits s' (10 * acc + digit_value c) 1)
      else None
  | EmptyString => None
  end.

(** The characters [float] removes from both ends of an ASCII string before
    it reads the numeral: TAB, LF, VT, FF, CR and SPACE.  The separators
    FS, GS, RS and US, which [str.strip] removes, stay in place. *)
Definition is_c_space (c : ascii) : bool :=
  let n := nat_of_ascii c in
  orb (andb (Nat.leb 9 n) (Nat.leb n 13)) (Nat.eqb n 32).

Fixpoint lstrip_c (s : string) : string :=
  match s with
  | EmptyString => EmptyString
  | String c s' => if is_c_space c then lstrip_c s' else s
  end.

Fixpoint rstrip_c (s : string) : string :=
  match s with
  | EmptyString => EmptyString
  | String c s' =>
      let r := rstrip_c s' in
      if andb (is_c_space c) (is_empty r) then EmptyString else String c r
  end.

Definition strip_c (s : string) : string := rstrip_c (lstrip_c s).

(** An optional sign: is it a minus, and what follows it. *)
Definition read_sign (s : string) : bool * string :=
  match s with
  | String c s' =>
      if Ascii.eqb c "-" then (true, s')
      else if Ascii.eqb c "+" then (false, s')
      else (false, s)
  | EmptyString => (false, s)
  end.

(** The exponent part: nothing, or [e] or [E], an optional sign and a run of
    digits.  Returns the exponent and the rest of the input. *)
Definition read_exponent (s : string) : option (Z * string) :=
  match s with
  | String c s' =>
      if orb (Ascii.eqb c "e") (Ascii.eqb c "E") then
        let (neg, s'') := read_sign s' in
        match digit_part s'' 0 with
        | Some d => Some (if neg then - sc_value d else sc_value d, sc_rest d)
        | None => None
        end
      else Some (0, s)
  | EmptyString => Some (0, s)
  end.

(** A decimal numeral without its sign: [Some (m, e)] stands for [m * 10^e].
    It has an integer part, a fraction or both, then an optional exponent,
    and nothing after. *)
Definition read_decimal (s : string) : option (Z * Z) :=
  let int_part := digit_part s 0 in
  let after_int := match int_part with Some d => sc_rest d | None => s end in
  let int_value := match int_part with Some d => sc_value d | None => 0 end in
  let mantissa :=
    match after_int with
    | String c s' =>
        if Ascii.eqb c "." then
          match digit_part s' int_value with
          | Some d => Some (sc_value d, sc_count d, sc_rest d)
          | None =>
              match int_part with
              | Some _ => Some (int_value, 0, s')
              | None => None
              end
          end
        else match int_part with
             | Some _ => Some (int_value, 0, after_int)
             | None => None
             end
    | EmptyString =>
        match int_part with
        | Some _ => Some (int_value, 0, after_int)
        | None => None
        end
    end in
  match mantissa with
  | None => None
  | Some (m, frac_digits, rest) =>
      match read_exponent rest with
      | Some (e, EmptyString) => Some (m, e - frac_digits)
      | _ => None
      end
  end.

(** [m * 10^e] rounded to binary64. *)
Definition round_decimal (m e : Z) : spec_float :=
  match m with
  | Zpos p =>
      if Z.leb 0 e
      then binary_normalize prec emax (Zpos p * 10 ^ e) 0 false
      else SFdiv prec emax (S754_finite false p 0)
                 (S754_finite false (Z.to_pos (10 ^ (- e))) 0)
  | _ => S754_zero false
  end.

Definition apply_sign (neg : bool) (f : spec_float) : spec_float :=
  if neg then SFopp f else f.

(** [float(s)] on a string. *)
Definition float_of_string (s : string) : result spec_float :=
  let (neg, body) := read_sign (strip_c s) in
  let word := lower body in
  if orb (String.eqb word "inf") (String.eqb word "infinity")
  then Return (S754_infinity neg)
  else if String.eqb word "nan" then Return S754_nan
  else match read_decimal body with
       | Some (m, e) => Return (apply_sign neg (round_decimal m e))
       | None => Raise (ValueError_float s)
       end.

(** [f.is_integer()]. *)
Definition float_is_integer (f : spec_float) : bool :=
  match f with
  | S754_zero _ => true
  | S754_finite _ m e =>
      if Z.leb 0 e then true else Z.eqb (Zpos m mod 2 ^ (- e)) 0
  | _ => false
  end.

(** [int(f)]: truncation toward zero. *)
Definition int_of_float (f : spec_float) : result Z :=
  match f with
  | S754_zero _ => Return 0
  | S754_finite s m e =>
      let magnitude := if Z.leb 0 e then Zpos m * 2 ^ e else Zpos m / 2 ^ (- e) in
      Return (if s then - magnitude else magnitude)
  | S754_infinity _ => Raise OverflowError
  | S754_nan => Raise ValueError_int_nan
  end.

(** The exact value of a finite float, as a fraction. *)
Definition float_to_Q (f : spec_float) : option Q :=
  match f with
  | S754_zero _ => Some 0%Q
  | S754_finite s m e =>
      let q := if Z.leb 0 e then inject_Z (Zpos m * 2 ^ e)
               else Qmake (Zpos m) (Z.to_pos (2 ^ (- e))) in
      Some (if s then Qopp q else q)
  | _ => None
  end.

(** Exact comparison of a float with an integer; [None] for a NaN. *)
Definition compare_float_int (f : spec_float) (z : Z) : option comparison :=
  match f with
  | S754_nan => None
  | S754_infinity s => Some (if s then Lt else Gt)
  | S754_zero _ => Some (Z.compare 0 z)
  | S754_finite s m e =>
      let n := if s then Zneg m else Zpos m in
      Some (if Z.leb 0 e then Z.compare (n * 2 ^ e) z
            else Z.compare n (z * 2 ^ (- e)))
  end.

Definition bool_to_Z (b : bool) : Z := if b then 1 else 0.

(** [v <= f] for an object [v] and a float [f]: integers and booleans are
    compared by value, exactly; an object that is not a number cannot be
    ordered with a float. *)
Definition le_val_float (v : pyval) (f : spec_float) : result bool :=
  match v with
  | PyInt z =>
      Return match compare_float_int f z with
             | Some (Gt | Eq) => true
             | _ => false
             end
  | PyBool b =>
      Return match compare_float_int f (bool_to_Z b) with
             | Some (Gt | Eq) => true
             | _ => false
             end
  | PyFloat g => Return (SFleb g f)
  | _ => Raise TypeError
  end.

(** [f <= v]. *)
Definition le_float_val (f : spec_float) (v : pyval) : result bool :=
  match v with
  | PyInt z =>
      Return match compare_float_int f z with
             | Some (Lt | Eq) => true
             | _ => false
             end
  | PyBool b =>
      Return match compare_float_int f (bool_to_Z b) with
             | Some (Lt | Eq) => true
             | _ => false
             end
  | PyFloat g => Return (SFleb f g)
  | _ => Raise TypeError
  end.

(** ** Iteration *)

(** [iter(v)]: the items a [for] loop or [map] draws from [v].  A list gives
    its items, a string its characters, a mapping its keys; the other objects
    are not iterable. *)
Fixpoint chars (s : string) : list pyval :=
  match s with
  | EmptyString => []
  | String c s' => PyStr (String c EmptyString) :: chars s'
  end.

Definition iter_values (v : pyval) : result (list pyval) :=
  match v with
  | PyList items => Return items
  | PyStr s => Return (chars s)
  | PyDict d => Return (List.map (fun kv => PyStr (fst kv)) d)
  | _ => Raise TypeError
  end.

(** [x in map(str.lower, items)]: the items are lowered one at a time until
    one equals [x]; [str.lower] applied to an object that is not a string is a
    [TypeError]. *)
Fixpoint in_map_lower (x : string) (items : list pyval) : result bool :=
  match items with
  | [] => Return false
  | PyStr s :: rest =>
      if String.eqb x (lower s) then Return true else in_map_lower x rest
  | _ :: _ => Raise TypeError
  end.

(** The strings of a list of objects; a [TypeError] when one is not a
    string. *)
Fixpoint strings_of (items : list pyval) : result (list string) :=
  match items with
  | [] => Return []
  | PyStr s :: rest => l <- strings_of rest ;; Return (s :: l)
  | _ :: _ => Raise TypeError
  end.

(** [sep.join(v)]. *)
Definition py_join (sep : string) (v : pyval) : result string :=
  items <- iter_values v ;;
  l <- strings_of items ;;
  Return (join sep l).

(** A [map] object: the items it has yet to yield.  The functions mapped in
    this module are total on the items they are given, so the items are
    computed at once; what the model keeps is that they can be drawn once. *)
Definition map_object (A : Type) : Type := list A.

Definition py_map {A B : Type} (f : A -> B) (items : list A) : map_object B :=
  List.map f items.

(** [list(it)]: all the items left, and the exhausted iterator. *)
Definition py_list {A : Type} (it : map_object A) : list A * map_object A :=
  (it, []).

(** [set(it)] on strings: the distinct items left, and the exhausted
    iterator. *)
Definition py_set (it : map_object string) : list string * map_object string :=
  (nodup string_dec it, []).

(** [all(p(v) for v in it)]: draws items until [p] is false of one. *)
Fixpoint py_all {A : Type} (p : A -> result bool) (it : map_object A)
  : result (bool * map_object A) :=
  match it with
  | [] => Return (true, [])
  | v :: it' =>
      b <- p v ;;
      if b then py_all p it' else Return (false, it')
  end.

(** ** The built-in validators *)

Module RegexValidator.

Definition title : string := "Regex".
Definition slug : string := "regex".
Definition _kwargs_slug : string := "pattern".

Definition init_signature : signature := sig_self_kwargs.

Definition init_body (_ kwargs : kwargs_t) : result instance :=
  Return (RegexInstance (kwargs_get kwargs _kwargs_slug)).

Definition validate_kwargs_body (kwargs : kwargs_t) : result unit :=
  let pattern := kwargs_get kwargs _kwargs_slug in
  if negb (andb (truthy pattern) (isinstance_str pattern))
  then Raise (ValidationError "Pattern is required" [])
  else Return tt.

(** [validate(self, value)], for [self.pattern = pattern].  [None]: the
    pattern is outside the modelled fragment of [re]. *)
Definition validate (pattern : pyval) (value : string)
  : option (result unit) :=
  match pattern with
  | PyStr p =>
      match re_match p value with
      | None => None
      | Some (Raise e) => Some (Raise e)
      | Some (Return m) =>
          Some (if negb m
                then Raise (ValidationError "Value does not match regex" [])
                else Return tt)
      end
  | _ => Some (Raise TypeError)
  end.

Definition to_value := ValidatorBase.to_value.

End RegexValidator.

(** The class object. *)
Definition RegexValidator_class : validator_class := {|
  cls_name := "RegexValidator";
  title := RegexValidator.title;
  slug := RegexValidator.slug;
  get_kwargs_slug := ValidatorBase.base_get_kwargs_slug RegexValidator.slug;
  init_signature := RegexValidator.init_signature;
  init_body := RegexValidator.init_body;
  validate_kwargs_body := RegexValidator.validate_kwargs_body
|}.

(** [obj.get(key)] on an arbitrary object: only a mapping has the method. *)
Definition call_get (obj : pyval) (key : string) : result pyval :=
  match obj with
  | PyDict d => Return (kwargs_get d key)
  | _ => Raise AttributeError
  end.

(** A bound method that has been looked up and not called, such as
    [str(x).isdigit]: the method [name] of the string [str(of_str)]. *)
Inductive bound_method : Type :=
| BoundMethod (of_str : pyval) (name : string).

(** A method object is true. *)
Definition truthy_method (m : bound_method) : bool := true.

(** [try: body except ValueError: handler]. *)
Definition try_except_ValueError {A : Type} (body handler : result A)
  : result A :=
  match body with
  | Return a => Return a
  | Raise e => if is_ValueError e then handler else Raise e
  end.

Module RangeValidator.

Definition title : string := "Range".
Definition slug : string := "range".
Definition _kwargs_slug : string := slug.

Definition init_signature : signature := sig_self_kwargs.

Definition init_body (_ kwargs : kwargs_t) : result instance :=
  let _range := kwargs_get_default kwargs _kwargs_slug (PyDict []) in
  min_value <- call_get _range "min_value" ;;
  max_value <- call_get _range "max_value" ;;
  Return (RangeInstance min_value max_value).

Definition validate_kwargs_body (kwargs : kwargs_t) : result unit :=
  let _range := kwargs_get_default kwargs _kwargs_slug (PyDict []) in
  min_value <- call_get _range "min_value" ;;
  max_value <- call_get _range "max_value" ;;
  if negb (forallb (fun v => negb (is_none v)) [min_value; max_value])
  then Raise (ValidationError "min_value and max_value are required" [])
  else if negb (forallb truthy_method
                  (List.map (fun x => BoundMethod x "isdigit")
                     [min_value; max_value]))
  then Raise (ValidationError "min_value and max_value must be number" [])
  else Return tt.

(** [validate(self, value)], for the bounds of [self]. *)
Definition validate (min_value max_value : pyval) (value : string)
  : result unit :=
  try_except_ValueError
    (f <- float_of_string value ;;
     low <- le_val_float min_value f ;;
     in_range <- (if low then le_float_val f max_value else Return false) ;;
     if negb in_range
     then Raise (ValidationError "Value is not in range: %s - %s"
                   [min_value; max_value])
     else Return tt)
    (Raise (ValidationError "Value must be an number" [])).

Definition to_value (value : string) : result pyval :=
  value <- float_of_string value ;;
  if float_is_integer value
  then (n <- int_of_float value ;; Return (PyInt n))
  else Return (PyFloat value).

End RangeValidator.

(** The class object. *)
Definition RangeValidator_class : validator_class := {|
  cls_name := "RangeValidator";
  title := RangeValidator.title;
  slug := RangeValidator.slug;
  get_kwargs_slug := ValidatorBase.base_get_kwargs_slug RangeValidator.slug;
  init_signature := RangeValidator.init_signature;
  init_body := RangeValidator.init_body;
  validate_kwargs_body := RangeValidator.validate_kwargs_body
|}.

Module ChoiceValidator.

Definition title : string := "Choice".
Definition slug : string := "choice".
Definition _kwargs_slug : string := "choices".

(** [__init__(self, choices)]. *)
Definition init_signature : signature :=
  {| sig_params := ["self"; "choices"]; sig_var_keyword := None |}.

Definition init_body (named _ : kwargs_t) : result instance :=
  Return (ChoiceInstance (kwargs_get named "choices")).

Definition get_kwargs_slug : string := _kwargs_slug.

Definition validate_kwargs_body (kwargs : kwargs_t) : result unit :=
  let choices := kwargs_get kwargs "choices" in
  if negb (truthy choices)
  then Raise (ValidationError "Choices are required" [])
  else if negb (isinstance_list choices)
  then Raise (ValidationError "Choices must be a list" [])
  else Return tt.

(** [validate(self, value)], for [self.choices = choices]. *)
Definition validate (choices : pyval) (value : string) : result unit :=
  items <- iter_values choices ;;
  found <- in_map_lower (lower value) items ;;
  if negb found
  then (valid <- py_join ", " choices ;;
        Raise (ValidationError
                 "Value is not in choices. Valid choices are: %s"
                 [PyStr valid]))
  else Return tt.

Definition to_value := ValidatorBase.to_value.

End ChoiceValidator.

(** The class object. *)
Definition ChoiceValidator_class : validator_class := {|
  cls_name := "ChoiceValidator";
  title := ChoiceValidator.title;
  slug := ChoiceValidator.slug;
  get_kwargs_slug := ChoiceValidator.get_kwargs_slug;
  init_signature := ChoiceValidator.init_signature;
  init_body := ChoiceValidator.init_body;
  validate_kwargs_body := ChoiceValidator.validate_kwargs_body
|}.

Module BooleanValidator.

Definition title : string := "Boolean".
Definition slug : string := "boolean".

(** [str(value)] on a raw value, which is a string. *)
Definition str (value : string) : string := value.

Definition validate (value : string) : result unit :=
  if negb (mem_string (lower (str value)) ["true"; "false"])
  then Raise (ValidationError "Value must be 'true' or 'false'." [])
  else Return tt.

Definition to_value (value : string) : result pyval :=
  Return (PyBool (String.eqb (lower (str value)) "true")).

End BooleanValidator.

(** The class object; [__init__] and [validate_kwargs] are inherited. *)
Definition BooleanValidator_class : validator_class := {|
  cls_name := "BooleanValidator";
  title := BooleanValidator.title;
  slug := BooleanValidator.slug;
  get_kwargs_slug := ValidatorBase.base_get_kwargs_slug BooleanValidator.slug;
  init_signature := ValidatorBase.base_init_signature;
  init_body := ValidatorBase.base_init_body;
  validate_kwargs_body := ValidatorBase.base_validate_kwargs_body
|}.

Module MultipleChoiceValidator.

Definition title : string := "Multiple Choice".
Definition slug : string := "multiple_choice".
Definition _kwargs_slug : string := "choices".

Definition init_signature : signature := sig_self_kwargs.

Definition init_body (_ kwargs : kwargs_t) : result instance :=
  Return (MultipleChoiceInstance
            (kwargs_get_default kwargs _kwargs_slug (PyList []))).

Definition validate_kwargs_body (kwargs : kwargs_t) : result unit :=
  let choices := kwargs_get kwargs _kwargs_slug in
  if negb (truthy choices)
  then Raise (ValidationError "Choices are required" [])
  else if negb (isinstance_list choices)
  then Raise (ValidationError "Choices must be a list" [])
  else Return tt.

(** [validate(self, value)], for [self.choices = choices].  The one [map]
    object [selected_values] is drawn from three times, by [list], by [set]
    and by the generator under [all]. *)
Definition validate (choices : pyval) (value : string) : result unit :=
  let selected_values := py_map lower (py_map strip (split "," value)) in
  let (as_list, selected_values) := py_list selected_values in
  let (as_set, selected_values) := py_set selected_values in
  if negb (Nat.eqb (length as_list) (length as_set))
  then Raise (ValidationError "Duplicate choices are not allowed" [])
  else
    checked <- py_all (fun v => items <- iter_values choices ;;
                                in_map_lower v items)
                      selected_values ;;
    if negb (fst checked)
    then (valid <- py_join ", " choices ;;
          Raise (ValidationError "Invalid choices. Valid choices are: %s"
                   [PyStr valid]))
    else Return tt.

Definition to_value := ValidatorBase.to_value.

End MultipleChoiceValidator.

(** The class object. *)
Definition MultipleChoiceValidator_class : validator_class := {|
  cls_name := "MultipleChoiceValidator";
  title := MultipleChoiceValidator.title;
  slug := MultipleChoiceValidator.slug;
  get_kwargs_slug :=
    ValidatorBase.base_get_kwargs_slug MultipleChoiceValidator.slug;
  init_signature := MultipleChoiceValidator.init_signature;
  init_body := MultipleChoiceValidator.init_body;
  validate_kwargs_body := MultipleChoiceValidator.validate_kwargs_body
|}.

(** ** Dispatch on the instance's class *)

(** [self.validate(value)]. *)
Definition validate (self : instance) (value : string) : option (result unit) :=
  match self with
  | RegexInstance pattern => RegexValidator.validate pattern value
  | RangeInstance min_value max_value =>
      Some (RangeValidator.validate min_value max_value value)
  | ChoiceInstance choices => Some (ChoiceValidator.validate choices value)
  | BooleanInstance => Some (BooleanValidator.validate value)
  | MultipleChoiceInstance choices =>
      Some (MultipleChoiceValidator.validate choices value)
  end.

(** [self.to_value(value)]. *)
Definition to_value (self : instance) (value : string) : result pyval :=
  match self with
  | RegexInstance _ => RegexValidator.to_value value
  | RangeInstance _ _ => RangeValidator.to_value value
  | ChoiceInstance _ => ChoiceValidator.to_value value
  | BooleanInstance => BooleanValidator.to_value value
  | MultipleChoiceInstance _ => MultipleChoiceValidator.to_value value
  end.

(** ** Loading the module

    The five [@register class ...] statements, in order.  Each one calls
    [register] on the class it has just built and binds the class's name, in
    the module's namespace, to what the call returns. *)

Record module_state : Type := {
  validators : ValidatorRegistry.validators_t;
  globals : dict (option validator_class)
}.

Definition decorated_class (c : validator_class) (st : module_state)
  : module_state :=
  let (returned, validators') := ValidatorRegistry.register c (validators st) in
  {| validators := validators';
     globals := dict_set (globals st) (cls_name c) returned |}.

Definition builtin_classes : list validator_class :=
  [RegexValidator_class; RangeValidator_class; ChoiceValidator_class;
   BooleanValidator_class; MultipleChoiceValidator_class].

Definition module_loaded : module_state :=
  fold_left (fun st c => decorated_class c st) builtin_classes
    {| validators := ValidatorRegistry.empty; globals := [] |}.

(** Registering a list of classes, first to last. *)
Definition register_all (cs : list validator_class)
  (vs : ValidatorRegistry.validators_t) : ValidatorRegistry.validators_t :=
  fold_left (fun vs c => snd (ValidatorRegistry.register c vs)) cs vs.

(** ** Classes of patterns *)

(** Does the character [c] occur in [s]? *)
Fixpoint mentions (c : ascii) (s : string) : bool :=
  match s with
  | EmptyString => false
  | String a s' => orb (Ascii.eqb a c) (mentions c s')
  end.

(** No [$] anywhere in the expression. *)
Fixpoint eol_free (r : regex) : bool :=
  match r with
  | Eol => false
  | Seq r1 r2 | Alt r1 r2 => andb (eol_free r1) (eol_free r2)
  | Star r1 => eol_free r1
  | _ => true
  end.

(** The same of the parser's last item and of its finished branches. *)
Definition item_eol_free (last : last_item) : bool :=
  match last with
  | NoItem => true
  | Atom r | Anchor r | Repeat r | LazyRepeat r => eol_free r
  end.

Definition alts_eol_free (alts : option regex) : bool :=
  match alts with None => true | Some a => eol_free a end.

(** The characters [re] gives a meaning to. *)
Definition special (c : ascii) : bool :=
  orb (outside_fragment c)
      (existsb (Ascii.eqb c) ["|"; "^"; "$"; "."; "*"; "+"; "?"]%char).

(** A pattern made of ordinary characters only. *)
Fixpoint plain (s : string) : bool :=
  match s with
  | EmptyString => true
  | String c s' => andb (negb (special c)) (plain s')
  end.

(** [r] followed by the characters of [s], one after the other, as the
    parser builds it. *)
Fixpoint literal_chain (r : regex) (s : string) : regex :=
  match s with
  | EmptyString => r
  | String c s' => literal_chain (Seq r (Chr c)) s'
  end.

(** * Properties *)

Unset Implicit Arguments.

(** ** Dictionaries *)

Section DictFacts.
Variable V : Type.
Implicit Types (d : dict V) (k : string) (v : V).

Lemma dict_get_set_eq d k v : dict_get (dict_set d k v) k = Some v.
Proof.
  induction d as [|[k' v'] d IH]; simpl.
  - now rewrite String.eqb_refl.
  - destruct (String.eqb k' k) eqn:E; simpl; rewrite E; auto.
Qed.

Lemma dict_get_set_neq d k k' v :
  k <> k' -> dict_get (dict_set d k v) k' = dict_get d k'.
Proof.
  intros Hne. induction d as [|[k0 v0] d IH]; simpl.
  - destruct (String.eqb_spec k k'); congruence.
  - destruct (String.eqb_spec k0 k) as [->|]; simpl.
    + destruct (String.eqb_spec k k'); congruence.
    + now rewrite IH.
Qed.

Lemma dict_get_None d k : dict_get d k = None <-> ~ In k (dict_keys d).
Proof.
  induction d as [|[k' v'] d IH]; simpl.
  - tauto.
  - destruct (String.eqb_spec k' k) as [->|Hne].
    + split; [discriminate | tauto].
    + rewrite IH. tauto.
Qed.

Lemma dict_get_Some_In d k v : dict_get d k = Some v -> In k (dict_keys d).
Proof.
  intros H. destruct (in_dec string_dec k (dict_keys d)) as [|Hn]; auto.
  apply dict_get_None in Hn. congruence.
Qed.

Lemma dict_mem_true d k : dict_mem d k = true <-> In k (dict_keys d).
Proof.
  unfold dict_mem. destruct (dict_get d k) eqn:E.
  - split; auto. intros _. eapply dict_get_Some_In; eauto.
  - apply dict_get_None in E. split; [discriminate | tauto].
Qed.

Lemma dict_mem_false d k : dict_mem d k = false <-> ~ In k (dict_keys d).
Proof.
  rewrite <- dict_mem_true. destruct (dict_mem d k); split; congruence.
Qed.

Lemma dict_keys_set_In d k v k' :
  In k' (dict_keys (dict_set d k v)) <-> k' = k \/ In k' (dict_keys d).
Proof.
  induction d as [|[k0 v0] d IH]; simpl.
  - intuition.
  - destruct (String.eqb_spec k0 k) as [->|Hne]; simpl.
    + intuition.
    + rewrite IH. intuition.
Qed.

(** Assigning to a key that is present leaves the keys as they were. *)
Lemma dict_keys_set_present d k v :
  In k (dict_keys d) -> dict_keys (dict_set d k v) = dict_keys d.
Proof.
  induction d as [|[k0 v0] d IH]; simpl; [tauto|].
  intros Hin. destruct (String.eqb_spec k0 k) as [->|Hne]; simpl; auto.
  f_equal. apply IH. destruct Hin; congruence.
Qed.

(** Assigning to a new key adds it after the others. *)
Lemma dict_keys_set_absent d k v :
  ~ In k (dict_keys d) -> dict_keys (dict_set d k v) = dict_keys d ++ [k].
Proof.
  induction d as [|[k0 v0] d IH]; simpl; auto.
  intros Hn. destruct (String.eqb_spec k0 k) as [->|Hne]; simpl.
  - tauto.
  - f_equal. apply IH. tauto.
Qed.

Lemma dict_keys_set_NoDup d k v :
  NoDup (dict_keys d) -> NoDup (dict_keys (dict_set d k v)).
Proof.
  intros Hnd. destruct (in_dec string_dec k (dict_keys d)) as [Hin|Hn].
  - now rewrite dict_keys_set_present.
  - rewrite dict_keys_set_absent by assumption.
    apply NoDup_app; [assumption | repeat constructor; simpl; tauto |].
    intros x Hx [<-|[]]. contradiction.
Qed.
End DictFacts.

(** ** The registry *)

Lemma register_all_snoc cs c vs :
  register_all (cs ++ [c]) vs =
  snd (ValidatorRegistry.register c (register_all cs vs)).
Proof. unfold register_all. now rewrite fold_left_app. Qed.

(** Looking a slug up after a run of registrations gives the class
    registered last under it. *)
Lemma get_validator_register_all cs vs s :
  ValidatorRegistry.get_validator (register_all cs vs) s =
  match find (fun c => String.eqb (slug c) s) (rev cs) with
  | Some c => Some c
  | None => ValidatorRegistry.get_validator vs s
  end.
Proof.
  induction cs as [|c cs IH] using rev_ind; [reflexivity|].
  rewrite register_all_snoc, rev_unit. simpl.
  unfold ValidatorRegistry.get_validator in *.
  destruct (String.eqb_spec (slug c) s) as [<-|Hne].
  - apply dict_get_set_eq.
  - rewrite dict_get_set_neq by assumption. apply IH.
Qed.

Lemma register_all_keys cs vs s :
  In s (dict_keys (register_all cs vs)) <->
  In s (List.map slug cs) \/ In s (dict_keys vs).
Proof.
  induction cs as [|c cs IH] using rev_ind; simpl; [tauto|].
  rewrite register_all_snoc. simpl.
  rewrite dict_keys_set_In, IH, map_app, in_app_iff. simpl. intuition.
Qed.

Lemma register_all_NoDup cs vs :
  NoDup (dict_keys vs) -> NoDup (dict_keys (register_all cs vs)).
Proof.
  intros Hnd. induction cs as [|c cs IH] using rev_ind; simpl; auto.
  rewrite register_all_snoc. simpl. now apply dict_keys_set_NoDup.
Qed.

(** C2: [register] stores the class under its slug, yet what it returns is
    [None] and not the class: the method has no [return] statement.  Used as
    a decorator it therefore binds each built-in class's name to [None]. *)
Theorem register_returns_None :
  (forall V vs,
     fst (ValidatorRegistry.register V vs) = None /\
     ValidatorRegistry.get_validator
       (snd (ValidatorRegistry.register V vs)) (slug V) = Some V) /\
  (forall c, In c builtin_classes ->
     dict_get (globals module_loaded) (cls_name c) = Some None) /\
  ValidatorRegistry.get_validator (validators module_loaded) "regex"
    = Some RegexValidator_class.
Proof.
  split; [|split].
  - intros V vs. split; [reflexivity|].
    apply dict_get_set_eq.
  - intros c Hc. simpl in Hc.
    repeat (destruct Hc as [<-|Hc]; [reflexivity|]). destruct Hc.
  - reflexivity.
Qed.

Lemma register_returns_None_witness :
  dict_get (globals module_loaded) "ChoiceValidator" = Some None.
Proof.
  destruct register_returns_None as [_ [H _]].
  apply (H ChoiceValidator_class). simpl. auto.
Defined.

(** C5: after any run of registrations on the empty registry, every slug
    that [get_validator] resolves leads to a class with that very slug; every
    registered slug resolves, to the class registered last under it; and the
    registry holds one entry per slug.  Registering a second class under a
    slug that is present replaces the first and adds no key. *)
Theorem registry_slug_invariant (cs : list validator_class) :
  let vs := register_all cs ValidatorRegistry.empty in
  (forall s c, ValidatorRegistry.get_validator vs s = Some c -> slug c = s) /\
  (forall s, In s (List.map slug cs) ->
     exists c, ValidatorRegistry.get_validator vs s = Some c /\ slug c = s /\
               find (fun c => String.eqb (slug c) s) (rev cs) = Some c) /\
  NoDup (dict_keys vs) /\
  (forall s, In s (dict_keys vs) <-> In s (List.map slug cs)) /\
  (forall c1 c2, slug c1 = slug c2 ->
     let vs1 := snd (ValidatorRegistry.register c1 vs) in
     let vs2 := snd (ValidatorRegistry.register c2 vs1) in
     ValidatorRegistry.get_validator vs2 (slug c1) = Some c2 /\
     dict_keys vs2 = dict_keys vs1).
Proof.
  intros vs. subst vs.
  assert (Hget : forall s,
             ValidatorRegistry.get_validator
               (register_all cs ValidatorRegistry.empty) s =
             find (fun c => String.eqb (slug c) s) (rev cs)).
  { intros s. rewrite get_validator_register_all.
    now destruct (find _ (rev cs)). }
  repeat split.
  - intros s c H. rewrite Hget in H. apply find_some in H as [_ H].
    now apply String.eqb_eq.
  - intros s Hs. rewrite Hget.
    destruct (find (fun c => String.eqb (slug c) s) (rev cs)) as [c|] eqn:E.
    + exists c. apply find_some in E as [_ E]. apply String.eqb_eq in E. auto.
    + apply in_map_iff in Hs as (c & Hc & Hin).
      apply in_rev in Hin. apply (find_none _ _ E c) in Hin.
      subst s. now rewrite String.eqb_refl in Hin.
  - apply register_all_NoDup. constructor.
  - intros H. apply register_all_keys in H. simpl in H. tauto.
  - intros H. apply register_all_keys. auto.
  - simpl. rewrite H. apply dict_get_set_eq.
  - simpl. apply dict_keys_set_present.
    apply dict_keys_set_In. auto.
Qed.

Lemma registry_slug_invariant_witness :
  exists c, ValidatorRegistry.get_validator (validators module_loaded) "range"
            = Some c /\ slug c = "range".
Proof.
  destruct (registry_slug_invariant builtin_classes) as (_ & H & _).
  destruct (H "range") as (c & Hc & Hs & _).
  - simpl. auto.
  - exists c. split; [exact Hc | exact Hs].
Defined.

(** C6: for a slug that is not a key of the registry, [get_validator] returns
    [None]; being [dict.get], it has no way to raise. *)
Theorem get_validator_unknown (vs : ValidatorRegistry.validators_t) (s : string) :
  ~ In s (dict_keys vs) -> ValidatorRegistry.get_validator vs s = None.
Proof. intros H. now apply dict_get_None. Qed.

Lemma get_validator_unknown_witness :
  ValidatorRegistry.get_validator (validators module_loaded) "nonexistent" = None.
Proof.
  apply get_validator_unknown. simpl.
  intros H. repeat (destruct H as [H|H]; [discriminate H|]). exact H.
Defined.

(** ** Calls *)

Lemma filter_keep_all (A : Type) (l : list A) : filter (fun _ => true) l = l.
Proof. induction l; simpl; congruence. Qed.

Lemma filter_drop_all (A : Type) (l : list A) : filter (fun _ => false) l = [].
Proof. induction l; simpl; congruence. Qed.

(** A method that takes its receiver and [**kwargs] accepts every mapping
    that does not name the receiver's parameter, and collects all of it. *)
Lemma bind_arguments_receiver_only receiver k kw :
  bind_arguments {| sig_params := [receiver]; sig_var_keyword := Some k |} kw =
  if dict_mem kw receiver then Raise TypeError else Return ([], kw).
Proof.
  unfold bind_arguments. simpl. destruct (dict_mem kw receiver); simpl; auto.
  now rewrite filter_keep_all, filter_drop_all.
Qed.

Lemma call_validate_kwargs_eq cls kw :
  ValidatorBase.call_validate_kwargs cls kw =
  if dict_mem kw "self" then Raise TypeError else validate_kwargs_body cls kw.
Proof.
  unfold ValidatorBase.call_validate_kwargs, py_call, sig_self_kwargs.
  rewrite bind_arguments_receiver_only. now destruct (dict_mem kw "self").
Qed.

Lemma initialize_from_kwargs_eq cls kw :
  ValidatorBase.initialize_from_kwargs cls kw =
  if dict_mem kw "cls" then Raise TypeError
  else match (ValidatorBase.call_validate_kwargs cls kw ;;;
              ValidatorBase.construct cls kw) with
       | Return inst => Return inst
       | Raise e =>
           if ValidatorBase.suppressed e
           then Raise (ValueError_invalid_kwargs (cls_name cls)
                         (ValidatorBase.get_instance_kwargs (init_signature cls)))
           else Raise e
       end.
Proof.
  unfold ValidatorBase.initialize_from_kwargs, py_call, sig_cls_kwargs.
  rewrite bind_arguments_receiver_only. now destruct (dict_mem kw "cls").
Qed.

(** A key that names no parameter survives the filter of surplus keys. *)
Lemma surplus_key_kept (kw : kwargs_t) (named : list string) k :
  In k (dict_keys kw) -> mem_string k named = false ->
  filter (fun kv => negb (mem_string (fst kv) named)) kw <> [].
Proof.
  intros Hin Hk H.
  apply in_map_iff in Hin as ([k' v] & <- & Hin).
  assert (Hf : In (k', v)
                 (filter (fun kv => negb (mem_string (fst kv) named)) kw)).
  { apply filter_In. split; auto. simpl in *. now rewrite Hk. }
  rewrite H in Hf. destruct Hf.
Qed.

(** ** Construction from keyword arguments *)

(** Exposes the [validate_kwargs] body of a built-in class. *)
Ltac class_body :=
  cbv [validate_kwargs_body RegexValidator_class RangeValidator_class
       ChoiceValidator_class BooleanValidator_class
       MultipleChoiceValidator_class].

(** C3, the claim as stated fails: with the required [pattern] missing,
    [RegexValidator]'s [initialize_from_kwargs] lets the [ValidationError] of
    [validate_kwargs] through as it is; it does not raise the uniform
    [ValueError] that lists the constructor's parameters. *)
Lemma initialize_missing_key_not_uniform :
  ValidatorBase.initialize_from_kwargs RegexValidator_class []
    = Raise (ValidationError "Pattern is required" []) /\
  ValidatorBase.suppressed (ValidationError "Pattern is required" []) = false /\
  ValidatorBase.initialize_from_kwargs RegexValidator_class []
    <> Raise (ValueError_invalid_kwargs (cls_name RegexValidator_class)
                (ValidatorBase.get_instance_kwargs
                   (init_signature RegexValidator_class))).
Proof. repeat split. discriminate. Qed.

(** C3, amended: on a mapping that uses neither [cls] nor [self] as a key,
    [initialize_from_kwargs] of a built-in validator whose required key is
    missing fails with the [ValidationError] of that validator's
    [validate_kwargs], unchanged.  Whatever [validate_kwargs] or the
    constructor raise is replaced by the uniform [ValueError], which lists
    the constructor's parameter names, exactly when it is a [KeyError], an
    [AttributeError] or a [ValueError], and is passed on unchanged otherwise;
    [RangeValidator] given a [range] that is not a mapping is such a case. *)
Theorem initialize_from_kwargs_errors (kwargs : kwargs_t) :
  dict_mem kwargs "cls" = false ->
  dict_mem kwargs "self" = false ->
  (dict_get kwargs "pattern" = None ->
   ValidatorBase.initialize_from_kwargs RegexValidator_class kwargs
     = Raise (ValidationError "Pattern is required" [])) /\
  (dict_get kwargs "range" = None ->
   ValidatorBase.initialize_from_kwargs RangeValidator_class kwargs
     = Raise (ValidationError "min_value and max_value are required" [])) /\
  (dict_get kwargs "choices" = None ->
   ValidatorBase.initialize_from_kwargs ChoiceValidator_class kwargs
     = Raise (ValidationError "Choices are required" []) /\
   ValidatorBase.initialize_from_kwargs MultipleChoiceValidator_class kwargs
     = Raise (ValidationError "Choices are required" [])) /\
  (forall cls e,
     (ValidatorBase.call_validate_kwargs cls kwargs ;;;
      ValidatorBase.construct cls kwargs) = Raise e ->
     ValidatorBase.initialize_from_kwargs cls kwargs =
     Raise (if ValidatorBase.suppressed e
            then ValueError_invalid_kwargs (cls_name cls)
                   (ValidatorBase.get_instance_kwargs (init_signature cls))
            else e)) /\
  (forall v, dict_get kwargs "range" = Some v ->
     (forall d, v <> PyDict d) ->
     ValidatorBase.initialize_from_kwargs RangeValidator_class kwargs
       = Raise (ValueError_invalid_kwargs "RangeValidator" ["self"; "kwargs"])).
Proof.
  intros Hcls Hself.
  assert (Hinit : forall cls r,
             validate_kwargs_body cls kwargs = Raise r ->
             ValidatorBase.initialize_from_kwargs cls kwargs =
             Raise (if ValidatorBase.suppressed r
                    then ValueError_invalid_kwargs (cls_name cls)
                           (ValidatorBase.get_instance_kwargs
                              (init_signature cls))
                    else r)).
  { intros cls r Hr.
    rewrite initialize_from_kwargs_eq, Hcls, call_validate_kwargs_eq, Hself, Hr.
    simpl. now destruct (ValidatorBase.suppressed r). }
  split; [|split; [|split; [|split]]].
  - intros H.
    apply (Hinit RegexValidator_class (ValidationError "Pattern is required" [])).
    class_body. unfold RegexValidator.validate_kwargs_body, kwargs_get.
    unfold RegexValidator._kwargs_slug. now rewrite H.
  - intros H.
    apply (Hinit RangeValidator_class
             (ValidationError "min_value and max_value are required" [])).
    class_body. unfold RangeValidator.validate_kwargs_body, kwargs_get_default.
    unfold RangeValidator._kwargs_slug, RangeValidator.slug. now rewrite H.
  - intros H. split.
    + apply (Hinit ChoiceValidator_class
               (ValidationError "Choices are required" [])).
      class_body. unfold ChoiceValidator.validate_kwargs_body, kwargs_get.
      now rewrite H.
    + apply (Hinit MultipleChoiceValidator_class
               (ValidationError "Choices are required" [])).
      class_body.
      unfold MultipleChoiceValidator.validate_kwargs_body, kwargs_get.
      unfold MultipleChoiceValidator._kwargs_slug. now rewrite H.
  - intros cls e He. rewrite initialize_from_kwargs_eq, Hcls, He.
    now destruct (ValidatorBase.suppressed e).
  - intros v Hv Hnd. apply (Hinit RangeValidator_class AttributeError).
    class_body. unfold RangeValidator.validate_kwargs_body, kwargs_get_default.
    unfold RangeValidator._kwargs_slug, RangeValidator.slug.
    rewrite Hv. destruct v; try reflexivity. now destruct (Hnd entries).
Qed.

Lemma initialize_from_kwargs_errors_witness :
  ValidatorBase.initialize_from_kwargs MultipleChoiceValidator_class
    [("pattern", PyStr "^a")]
    = Raise (ValidationError "Choices are required" []) /\
  ValidatorBase.initialize_from_kwargs RangeValidator_class
    [("range", PyStr "1-5")]
    = Raise (ValueError_invalid_kwargs "RangeValidator" ["self"; "kwargs"]).
Proof.
  split.
  - destruct (initialize_from_kwargs_errors [("pattern", PyStr "^a")])
      as (_ & _ & H & _); [reflexivity | reflexivity |].
    apply H. reflexivity.
  - destruct (initialize_from_kwargs_errors [("range", PyStr "1-5")])
      as (_ & _ & _ & _ & H); [reflexivity | reflexivity |].
    apply (H (PyStr "1-5")); [reflexivity | discriminate].
Defined.

(** C10: [ChoiceValidator]'s constructor takes [choices] and nothing else.
    Given a non-empty list under [choices] and any other key besides,
    [initialize_from_kwargs] raises a [TypeError]: [suppress] does not list
    it, so it escapes as it is.  When the other key is not a receiver's name,
    [validate_kwargs] has passed and it is the constructor call that raises. *)
Theorem choice_unexpected_key_TypeError (kwargs : kwargs_t)
  (x : pyval) (l : list pyval) (k : string) :
  dict_get kwargs "choices" = Some (PyList (x :: l)) ->
  In k (dict_keys kwargs) ->
  k <> "choices" ->
  ValidatorBase.initialize_from_kwargs ChoiceValidator_class kwargs
    = Raise TypeError /\
  ValidatorBase.suppressed TypeError = false /\
  (dict_mem kwargs "cls" = false -> dict_mem kwargs "self" = false ->
   ValidatorBase.call_validate_kwargs ChoiceValidator_class kwargs = Return tt /\
   ValidatorBase.construct ChoiceValidator_class kwargs = Raise TypeError).
Proof.
  intros Hch Hin Hk.
  assert (Hbody : validate_kwargs_body ChoiceValidator_class kwargs = Return tt).
  { class_body. unfold ChoiceValidator.validate_kwargs_body, kwargs_get.
    now rewrite Hch. }
  assert (Hcons : dict_mem kwargs "self" = false ->
                  ValidatorBase.construct ChoiceValidator_class kwargs
                  = Raise TypeError).
  { intros Hself. unfold ValidatorBase.construct, py_call, bind_arguments.
    simpl. rewrite Hself. unfold dict_mem at 1. rewrite Hch. simpl.
    destruct (filter _ kwargs) eqn:E; [|reflexivity].
    assert (Hmem : mem_string k ["choices"] = false).
    { simpl. destruct (String.eqb_spec k "choices"); [contradiction|reflexivity]. }
    destruct (surplus_key_kept kwargs ["choices"] k Hin Hmem E). }
  split; [|split; [reflexivity|]].
  - rewrite initialize_from_kwargs_eq, call_validate_kwargs_eq.
    destruct (dict_mem kwargs "cls"); [reflexivity|].
    destruct (dict_mem kwargs "self") eqn:Hself; [reflexivity|].
    rewrite Hbody. simpl. now rewrite Hcons.
  - intros _ Hself. split; [|now apply Hcons].
    now rewrite call_validate_kwargs_eq, Hself.
Qed.

Lemma choice_unexpected_key_TypeError_witness :
  ValidatorBase.initialize_from_kwargs ChoiceValidator_class
    [("choices", PyList [PyStr "Red"; PyStr "Blue"]); ("extra", PyInt 1)]
    = Raise TypeError.
Proof.
  refine (proj1 (choice_unexpected_key_TypeError
                   [("choices", PyList [PyStr "Red"; PyStr "Blue"]);
                    ("extra", PyInt 1)]
                   (PyStr "Red") [PyStr "Blue"] "extra" eq_refl _ _)).
  - simpl. auto.
  - discriminate.
Defined.

(** ** MultipleChoiceValidator *)

Lemma split_not_nil sep s : split sep s <> [].
Proof.
  destruct s as [|c s]; simpl; [discriminate|].
  destruct (Ascii.eqb c sep); [discriminate|].
  destruct (split sep s); discriminate.
Qed.

(** C1: [list(selected_values)] draws every item of the one [map] object, so
    [set(selected_values)] finds it exhausted and is empty, while the list
    has at least one item.  The two lengths differ for every raw value:
    [validate] raises the duplicate-choices error always, also on ["a, B"],
    and on ["a,z"] in place of the invalid-choices error. *)
Theorem multiple_choice_validate_always_duplicate :
  (forall choices value,
     MultipleChoiceValidator.validate choices value
     = Raise (ValidationError "Duplicate choices are not allowed" [])) /\
  (let abc := PyList [PyStr "a"; PyStr "b"; PyStr "c"] in
   ValidatorBase.initialize_from_kwargs MultipleChoiceValidator_class
     [("choices", abc)] = Return (MultipleChoiceInstance abc) /\
   validate (MultipleChoiceInstance abc) "a, B"
     = Some (Raise (ValidationError "Duplicate choices are not allowed" [])) /\
   validate (MultipleChoiceInstance abc) "a,a"
     = Some (Raise (ValidationError "Duplicate choices are not allowed" [])) /\
   validate (MultipleChoiceInstance abc) "a,z"
     = Some (Raise (ValidationError "Duplicate choices are not allowed" []))).
Proof.
  split; [|repeat split].
  intros choices value. unfold MultipleChoiceValidator.validate.
  unfold py_list, py_set, py_map.
  destruct (split "," value) eqn:E; [now apply split_not_nil in E|].
  reflexivity.
Qed.

(** ** RangeValidator: the configuration *)

(** C4: [str(x).isdigit] is looked up and never called, and a method object
    is true, so the second check of [validate_kwargs] cannot fail: no
    configuration draws the must-be-number error, and bounds that are present
    are accepted whatever they are, [-1] and [1.5] included. *)
Theorem range_validate_kwargs_accepts_any_bounds :
  (forall kwargs,
     RangeValidator.validate_kwargs_body kwargs
     <> Raise (ValidationError "min_value and max_value must be number" [])) /\
  (forall lo hi,
     is_none lo = false -> is_none hi = false ->
     RangeValidator.validate_kwargs_body
       [("range", PyDict [("min_value", lo); ("max_value", hi)])] = Return tt) /\
  (let one_and_a_half := S754_finite false 6755399441055744 (-52) in
   let config :=
     [("range", PyDict [("min_value", PyInt (-1));
                        ("max_value", PyFloat one_and_a_half)])] in
   float_of_string "1.5" = Return one_and_a_half /\
   RangeValidator.validate_kwargs_body config = Return tt /\
   ValidatorBase.initialize_from_kwargs RangeValidator_class config
   = Return (RangeInstance (PyInt (-1)) (PyFloat one_and_a_half))).
Proof.
  split; [|split].
  - intros kwargs. unfold RangeValidator.validate_kwargs_body.
    unfold call_get.
    destruct (kwargs_get_default kwargs _ _) as [| | | | | |d]; simpl;
      try discriminate.
    destruct (is_none (kwargs_get d "min_value")),
             (is_none (kwargs_get d "max_value")); simpl; discriminate.
  - intros lo hi Hlo Hhi.
    destruct lo; try discriminate Hlo; destruct hi; try discriminate Hhi;
      reflexivity.
  - repeat split.
Qed.

Lemma range_validate_kwargs_accepts_any_bounds_witness :
  RangeValidator.validate_kwargs_body
    [("range", PyDict [("min_value", PyStr "-1"); ("max_value", PyStr "x")])]
  = Return tt.
Proof.
  destruct range_validate_kwargs_accepts_any_bounds as (_ & H & _).
  apply H; reflexivity.
Defined.

(** ** BooleanValidator *)

Lemma boolean_membership value :
  mem_string (lower (BooleanValidator.str value)) ["true"; "false"] = true <->
  lower value = "true" \/ lower value = "false".
Proof.
  unfold mem_string, BooleanValidator.str. simpl.
  rewrite !orb_true_iff, !String.eqb_eq. intuition discriminate.
Qed.

(** C9: [validate] returns exactly when the lowered raw value is ["true"] or
    ["false"], and raises a [ValidationError] otherwise; [to_value] is [True]
    exactly when the lowered raw value is ["true"], and [False] on every
    other input. *)
Theorem boolean_validate_to_value (value : string) :
  (BooleanValidator.validate value = Return tt <->
   lower value = "true" \/ lower value = "false") /\
  (~ (lower value = "true" \/ lower value = "false") ->
   BooleanValidator.validate value
   = Raise (ValidationError "Value must be 'true' or 'false'." [])) /\
  (BooleanValidator.to_value value = Return (PyBool true) <->
   lower value = "true") /\
  (lower value <> "true" ->
   BooleanValidator.to_value value = Return (PyBool false)) /\
  BooleanValidator.to_value "TRUE" = Return (PyBool true) /\
  BooleanValidator.validate "maybe"
  = Raise (ValidationError "Value must be 'true' or 'false'." []).
Proof.
  pose proof (boolean_membership value) as Hm.
  unfold BooleanValidator.validate, BooleanValidator.to_value.
  destruct (mem_string _ _); simpl.
  - split; [|split; [|split; [|split; [|split]]]]; try reflexivity.
    + split; [intros _; now apply Hm | reflexivity].
    + intros Hn. destruct Hn. now apply Hm.
    + unfold BooleanValidator.str.
      destruct (String.eqb_spec (lower value) "true") as [->|Hne];
        split; congruence.
    + unfold BooleanValidator.str. intros Hne.
      destruct (String.eqb_spec (lower value) "true"); congruence.
  - split; [|split; [|split; [|split; [|split]]]]; try reflexivity.
    + split; [discriminate|]. intros H. apply Hm in H. discriminate.
    + unfold BooleanValidator.str.
      destruct (String.eqb_spec (lower value) "true") as [->|Hne];
        split; congruence.
    + unfold BooleanValidator.str. intros Hne.
      destruct (String.eqb_spec (lower value) "true"); congruence.
Qed.

Lemma boolean_validate_to_value_witness :
  BooleanValidator.validate "False" = Return tt /\
  BooleanValidator.to_value "False" = Return (PyBool false).
Proof.
  destruct (boolean_validate_to_value "False") as (Hv & _ & _ & Ht & _).
  split.
  - apply Hv. right. reflexivity.
  - apply Ht. discriminate.
Defined.

(** ** RangeValidator: values *)

(** [float(s)] has one way to fail: the [ValueError] on a string that is not
    a numeral. *)
Lemma float_of_string_raises s e :
  float_of_string s = Raise e -> e = ValueError_float s.
Proof.
  unfold float_of_string. destruct (read_sign (strip_c s)) as [neg body].
  destruct (orb _ _); [discriminate|].
  destruct (String.eqb _ "nan"); [discriminate|].
  destruct (read_decimal body) as [[m x]|]; [discriminate|].
  congruence.
Qed.

(** [float] leaves a separator character where it is, so the numeral is not
    read; [str.strip] would have removed it. *)
Example float_keeps_separators :
  strip (String (ascii_of_nat 28) "7") = "7" /\
  float_of_string (String (ascii_of_nat 28) "7")
  = Raise (ValueError_float (String (ascii_of_nat 28) "7")) /\
  float_of_string (String (ascii_of_nat 9) "7 ")
  = Return (S754_finite false 7881299347898368 (-50)).
Proof. repeat split; vm_compute; reflexivity. Qed.

(** An integral float converts to the integer of the same value. *)
Lemma int_of_integral_float f :
  float_is_integer f = true ->
  exists n q, int_of_float f = Return n /\ float_to_Q f = Some q /\
              Qeq q (inject_Z n).
Proof.
  destruct f as [s|s| |s m e]; simpl; try discriminate.
  - intros _. exists 0, 0%Q. repeat split; reflexivity.
  - destruct (Z.leb 0 e) eqn:He; intros Hint.
    + destruct s; eexists; eexists; repeat split; reflexivity.
    + apply Z.eqb_eq in Hint. apply Z.leb_gt in He.
      assert (Hd : 0 < 2 ^ (- e)) by (apply Z.pow_pos_nonneg; lia).
      assert (Hm : Zpos m = Zpos m / 2 ^ (- e) * 2 ^ (- e)).
      { rewrite Z.mul_comm. apply Z.div_exact; lia. }
      destruct s; eexists; eexists; (split; [reflexivity|split; [reflexivity|]]);
        unfold Qeq; simpl; rewrite Z2Pos.id by assumption; lia.
Qed.

(** C8: a [RangeValidator] with bounds 1 and 5 accepts ["3"] and ["3.5"],
    turns ["3"] into the integer 3 and ["3.5"] into the float 7/2, rejects
    ["6"] as out of range and ["x"], which [float] cannot read, with the
    must-be-a-number error.  In general: a raw value that [float] cannot read
    draws the must-be-a-number error whatever the bounds; [to_value] narrows
    a float without fractional part to the integer of the same value, and
    keeps any other float. *)
Theorem range_validate_and_to_value :
  (let config := [("range", PyDict [("min_value", PyInt 1);
                                    ("max_value", PyInt 5)])] in
   let self := RangeInstance (PyInt 1) (PyInt 5) in
   ValidatorBase.initialize_from_kwargs RangeValidator_class config
     = Return self /\
   validate self "3" = Some (Return tt) /\
   to_value self "3" = Return (PyInt 3) /\
   validate self "3.5" = Some (Return tt) /\
   (exists f q, to_value self "3.5" = Return (PyFloat f) /\
                float_to_Q f = Some q /\ Qeq q (7 # 2)) /\
   validate self "6"
     = Some (Raise (ValidationError "Value is not in range: %s - %s"
                      [PyInt 1; PyInt 5])) /\
   float_of_string "x" = Raise (ValueError_float "x") /\
   validate self "x"
     = Some (Raise (ValidationError "Value must be an number" []))) /\
  (forall lo hi value e,
     float_of_string value = Raise e ->
     RangeValidator.validate lo hi value
     = Raise (ValidationError "Value must be an number" [])) /\
  (forall value f,
     float_of_string value = Return f ->
     float_is_integer f = true ->
     exists n q, RangeValidator.to_value value = Return (PyInt n) /\
                 float_to_Q f = Some q /\ Qeq q (inject_Z n)) /\
  (forall value f,
     float_of_string value = Return f ->
     float_is_integer f = false ->
     RangeValidator.to_value value = Return (PyFloat f)).
Proof.
  split; [|split; [|split]].
  - repeat split; try (vm_compute; reflexivity).
    eexists. eexists. split; [vm_compute; reflexivity|].
    split; [vm_compute; reflexivity|]. reflexivity.
  - intros lo hi value e He.
    pose proof (float_of_string_raises _ _ He) as ->.
    unfold RangeValidator.validate. now rewrite He.
  - intros value f Hf Hint.
    destruct (int_of_integral_float f Hint) as (n & q & Hn & Hq & Heq).
    exists n, q. unfold RangeValidator.to_value.
    rewrite Hf. simpl. rewrite Hint, Hn. auto.
  - intros value f Hf Hint. unfold RangeValidator.to_value.
    rewrite Hf. simpl. now rewrite Hint.
Qed.

Lemma range_validate_and_to_value_witness :
  RangeValidator.validate (PyInt 1) (PyInt 5) "1,5"
    = Raise (ValidationError "Value must be an number" []) /\
  RangeValidator.to_value "2.50" = Return (PyFloat (S754_finite false 5629499534213120 (-51))) /\
  exists n, RangeValidator.to_value "4.0" = Return (PyInt n).
Proof.
  destruct range_validate_and_to_value as (_ & Hbad & Hint & Hfrac).
  split; [|split].
  - apply (Hbad (PyInt 1) (PyInt 5) "1,5" (ValueError_float "1,5")).
    vm_compute. reflexivity.
  - apply Hfrac; vm_compute; reflexivity.
  - destruct (Hint "4.0" (S754_finite false 4503599627370496 (-50)))
      as (n & _ & Hn & _); [vm_compute; reflexivity | reflexivity |].
    exists n. exact Hn.
Defined.

(** ** Regular expressions *)

Lemma append_assoc (s1 s2 s3 : string) :
  ((s1 ++ s2) ++ s3 = s1 ++ (s2 ++ s3))%string.
Proof. induction s1 as [|c s1 IH]; simpl; congruence. Qed.

Lemma append_empty_inv (s1 s2 : string) :
  (s1 ++ s2)%string = "" -> s1 = "" /\ s2 = "".
Proof. destruct s1; simpl; [auto | discriminate]. Qed.

Lemma MSeq_empty_left r1 r2 bol w rest :
  Matches r1 bol "" (w ++ rest) -> Matches r2 bol w rest ->
  Matches (Seq r1 r2) bol w rest.
Proof.
  intros H1 H2. apply (@MSeq r1 r2 bol "" w rest H1).
  simpl. now rewrite andb_true_r.
Qed.

Lemma MSeq_cons r1 r2 bol c w1 w2 rest :
  Matches r1 bol (String c w1) (w2 ++ rest) -> Matches r2 false w2 rest ->
  Matches (Seq r1 r2) bol (String c (w1 ++ w2)) rest.
Proof.
  intros H1 H2. apply (@MSeq r1 r2 bol (String c w1) w2 rest H1).
  simpl. now rewrite andb_false_r.
Qed.

Lemma MStar_cons r bol c w1 w2 rest :
  Matches r bol (String c w1) (w2 ++ rest) -> Matches (Star r) false w2 rest ->
  Matches (Star r) bol (String c (w1 ++ w2)) rest.
Proof.
  intros H1 H2. apply (@MStarCons r bol (String c w1) w2 rest H1).
  simpl. now rewrite andb_false_r.
Qed.

(** [nullable] decides the match of the empty string. *)
Lemma nullable_Matches r bol rest :
  nullable bol (at_end rest) r = true <-> Matches r bol "" rest.
Proof.
  split.
  - induction r; simpl; intros H; try discriminate.
    + constructor.
    + subst. constructor.
    + now constructor.
    + apply andb_true_iff in H as [H1 H2].
      apply MSeq_empty_left; simpl; auto.
    + apply orb_true_iff in H as [H|H]; [apply MAltL | apply MAltR]; auto.
    + constructor.
  - intros H. remember "" as w eqn:Hw.
    induction H; simpl; try discriminate; auto.
    + apply append_empty_inv in Hw as [-> ->]. simpl in *.
      rewrite andb_true_r in IHMatches2.
      now rewrite IHMatches1, IHMatches2.
    + rewrite IHMatches by assumption. reflexivity.
    + rewrite IHMatches by assumption. apply orb_true_r.
Qed.

(** [deriv] consumes one character: what it leaves matches [w] exactly when
    [r] matches [c] followed by [w]. *)
Lemma deriv_sound r : forall bol c w rest,
  Matches (deriv bol (at_end (String c (w ++ rest))) c r) false w rest ->
  Matches r bol (String c w) rest.
Proof.
  induction r; simpl; intros bol c0 w rest H; try (now inversion H).
  - destruct (Ascii.eqb_spec c c0) as [->|]; inversion H; subst. constructor.
  - destruct (Ascii.eqb_spec c0 newline); inversion H; subst.
    now constructor.
  - inversion H as [| | | | | |? ? ? ? ? HL|? ? ? ? ? HR| |]; subst.
    + inversion HL as [| | | | |? ? ? w1 w2 ? H1 H2| | | |]; subst.
      rewrite append_assoc in H1. apply IHr1 in H1.
      now apply MSeq_cons.
    + destruct (nullable bol _ r1) eqn:Hn; [|now inversion HR].
      apply MSeq_empty_left.
      * now apply nullable_Matches.
      * now apply IHr2.
  - inversion H; subst; [apply MAltL | apply MAltR]; auto.
  - inversion H as [| | | | |? ? ? w1 w2 ? H1 H2| | | |]; subst.
    rewrite append_assoc in H1. apply IHr in H1.
    now apply MStar_cons.
Qed.

Lemma deriv_complete r bol w0 rest :
  Matches r bol w0 rest ->
  forall a v, w0 = String a v ->
  Matches (deriv bol (at_end (String a (v ++ rest))) a r) false v rest.
Proof.
  induction 1 as [| c0 | c0 ? ? Hc | | | r1 r2 bol w1 w2 rest H1 IH1 H2 IH2
                  | | | | r bol w1 w2 rest H1 IH1 H2 IH2];
    intros a v Hv; try discriminate; simpl.
  - injection Hv as -> <-. rewrite Ascii.eqb_refl. constructor.
  - injection Hv as -> <-.
    destruct (Ascii.eqb_spec a newline); [contradiction | constructor].
  - destruct w1 as [|c1 w1']; simpl in *.
    + subst w2. rewrite andb_true_r in IH2.
      apply nullable_Matches in H1. simpl in H1. rewrite H1.
      apply MAltR. now apply IH2.
    + injection Hv as -> <-. rewrite andb_false_r in H2.
      apply MAltL. rewrite append_assoc.
      apply (@MSeq _ r2 false w1' w2 rest); [now apply IH1 | exact H2].
  - apply MAltL. now apply IHMatches.
  - apply MAltR. now apply IHMatches.
  - destruct w1 as [|c1 w1']; simpl in *.
    + subst w2. rewrite andb_true_r in IH2. now apply (IH2 a v).
    + injection Hv as -> <-. rewrite andb_false_r in H2.
      rewrite append_assoc.
      apply (@MSeq _ (Star r) false w1' w2 rest); [now apply IH1 | exact H2].
Qed.

Lemma deriv_Matches r bol c w rest :
  Matches (deriv bol (at_end (String c (w ++ rest))) c r) false w rest <->
  Matches r bol (String c w) rest.
Proof.
  split; [apply deriv_sound | intros H; now apply (deriv_complete _ _ _ _ H)].
Qed.

Lemma match_exact_spec w : forall bol r rest,
  match_exact bol r w rest = true <-> Matches r bol w rest.
Proof.
  induction w as [|c w IH]; intros bol r rest; simpl.
  - apply nullable_Matches.
  - rewrite IH. apply deriv_Matches.
Qed.

(** [match_here] finds a match of some prefix of what is left. *)
Lemma match_here_spec s : forall bol r,
  match_here bol r s = true <->
  exists w rest, s = (w ++ rest)%string /\ Matches r bol w rest.
Proof.
  induction s as [|c s IH]; intros bol r.
  - change (match_here bol r "")
      with (orb (nullable bol (at_end "") r) false).
    rewrite orb_false_r, nullable_Matches. split.
    + intros H. now exists "", "".
    + intros (w & rest & Hs & H). symmetry in Hs.
      apply append_empty_inv in Hs as [-> ->]. exact H.
  - change (match_here bol r (String c s))
      with (orb (nullable bol (at_end (String c s)) r)
                (match_here false (deriv bol (at_end (String c s)) c r) s)).
    rewrite orb_true_iff, IH, nullable_Matches. split.
    + intros [H|(w & rest & -> & H)].
      * now exists "", (String c s).
      * exists (String c w), rest. split; [reflexivity|].
        now apply deriv_Matches.
    + intros (w & rest & Hs & H). destruct w as [|c' w]; simpl in Hs.
      * left. now subst rest.
      * right. injection Hs as <- ->. exists w, rest.
        split; [reflexivity|]. now apply deriv_Matches.
Qed.

(** ** RegexValidator *)

(** C7: a [RegexValidator] built from the pattern ["^a"] accepts ["abc"] and
    rejects ["bcd"] with a [ValidationError].  For every pattern of the
    fragment that compiles, [validate] accepts a raw value exactly when the
    pattern matches some prefix of it, taken from its start; otherwise it
    raises the [ValidationError].  The prefix may be a proper one: ["abc"] is
    accepted although the pattern does not match it as a whole; and it must
    begin the value: the pattern ["a"] rejects ["ba"]. *)
Theorem regex_validate_prefix_match :
  (ValidatorBase.initialize_from_kwargs RegexValidator_class
     [("pattern", PyStr "^a")] = Return (RegexInstance (PyStr "^a")) /\
   validate (RegexInstance (PyStr "^a")) "abc" = Some (Return tt) /\
   validate (RegexInstance (PyStr "^a")) "bcd"
   = Some (Raise (ValidationError "Value does not match regex" []))) /\
  (forall pattern r value,
     re_compile pattern = Some (Return r) ->
     (RegexValidator.validate (PyStr pattern) value = Some (Return tt) <->
      exists w rest, value = (w ++ rest)%string /\ Matches r true w rest) /\
     (RegexValidator.validate (PyStr pattern) value <> Some (Return tt) ->
      RegexValidator.validate (PyStr pattern) value
      = Some (Raise (ValidationError "Value does not match regex" [])))) /\
  (exists r, re_compile "^a" = Some (Return r) /\
             Matches r true "a" "bc" /\ ~ Matches r true "abc" "") /\
  RegexValidator.validate (PyStr "a") "ba"
  = Some (Raise (ValidationError "Value does not match regex" [])).
Proof.
  split; [repeat split | split; [|split; [|reflexivity]]].
  - intros pattern r value Hc.
    unfold RegexValidator.validate, re_match. rewrite Hc.
    pose proof (match_here_spec value true r) as Hspec.
    destruct (match_here true r value); simpl.
    + split; [|congruence]. split; [intros _; now apply Hspec | reflexivity].
    + split; [|reflexivity]. split; [discriminate|].
      intros H. apply Hspec in H. discriminate.
  - eexists. split; [reflexivity|]. split.
    + apply match_exact_spec. reflexivity.
    + intros H. apply match_exact_spec in H. discriminate.
Qed.

Lemma regex_validate_prefix_match_witness :
  RegexValidator.validate (PyStr "^ab*") "abbbc" = Some (Return tt).
Proof.
  destruct regex_validate_prefix_match as (_ & H & _).
  destruct (H "^ab*" (Seq (Seq (Seq Eps Bol) (Chr "a")) (Star (Chr "b")))
              "abbbc" eq_refl) as [[_ Hacc] _].
  apply Hacc. exists "abbb", "c". split; [reflexivity|].
  apply match_exact_spec. reflexivity.
Defined.

(** * Further properties *)

(** ** The registry: listing and re-registration *)

Lemma dict_get_In (V : Type) (d : dict V) k v :
  NoDup (dict_keys d) -> (In (k, v) d <-> dict_get d k = Some v).
Proof.
  induction d as [|[k0 v0] d IH]; simpl; intros Hnd.
  - split; [tauto | discriminate].
  - inversion Hnd as [|? ? Hk0 Hnd']; subst.
    destruct (String.eqb_spec k0 k) as [->|Hne].
    + split.
      * intros [E|Hin]; [congruence|].
        destruct Hk0. apply in_map_iff. now exists (k, v).
      * intros E. left. congruence.
    + rewrite <- (IH Hnd'). split; [intros [E|Hin]; [congruence|auto] | auto].
Qed.


Lemma get_choices_keys vs :
  List.map fst (ValidatorRegistry.get_choices vs) = dict_keys vs.
Proof.
  unfold ValidatorRegistry.get_choices, dict_keys. rewrite map_map.
  reflexivity.
Qed.

(** X1: after any run of registrations, [get_choices] lists every registered
    slug once, and pairs it with the title of the class that [get_validator]
    returns for it. *)
Theorem get_choices_matches_get_validator (cs : list validator_class) :
  let vs := register_all cs ValidatorRegistry.empty in
  NoDup (List.map fst (ValidatorRegistry.get_choices vs)) /\
  (forall s, In s (List.map fst (ValidatorRegistry.get_choices vs)) <->
             In s (List.map slug cs)) /\
  (forall s t, In (s, t) (ValidatorRegistry.get_choices vs) <->
     exists c, ValidatorRegistry.get_validator vs s = Some c /\ title c = t).
Proof.
  intros vs.
  assert (Hnd : NoDup (dict_keys vs))
    by (apply register_all_NoDup; constructor).
  split; [|split].
  - now rewrite get_choices_keys.
  - intros s. rewrite get_choices_keys. unfold vs.
    rewrite register_all_keys. simpl. tauto.
  - intros s t. unfold ValidatorRegistry.get_choices, ValidatorRegistry.get_validator.
    rewrite in_map_iff. split.
    + intros ([k c] & E & Hin). simpl in E. injection E as -> <-.
      exists c. split; [|reflexivity]. now apply dict_get_In.
    + intros (c & Hget & <-). exists (s, c). split; [reflexivity|].
      now apply dict_get_In.
Qed.

Lemma get_choices_matches_get_validator_witness :
  In ("choice", "Choice") (ValidatorRegistry.get_choices (validators module_loaded)).
Proof.
  destruct (get_choices_matches_get_validator builtin_classes) as (_ & _ & H).
  apply H. exists ChoiceValidator_class. split; reflexivity.
Defined.

(** X2: registering a class under a slug that is not yet a key puts its pair
    at the end of [get_choices]; registering under a slug that is present
    leaves every pair in its place and replaces the title of that slug's
    pair. *)
Theorem get_choices_registration_order
  (vs : ValidatorRegistry.validators_t) (c : validator_class) :
  NoDup (dict_keys vs) ->
  (~ In (slug c) (dict_keys vs) ->
   ValidatorRegistry.get_choices (snd (ValidatorRegistry.register c vs))
   = ValidatorRegistry.get_choices vs ++ [(slug c, title c)]) /\
  (In (slug c) (dict_keys vs) ->
   ValidatorRegistry.get_choices (snd (ValidatorRegistry.register c vs))
   = List.map (fun p => if String.eqb (fst p) (slug c)
                        then (fst p, title c) else p)
       (ValidatorRegistry.get_choices vs)).
Proof.
  simpl. induction vs as [|[k0 c0] vs IH]; simpl; intros Hnd.
  - split; [reflexivity | tauto].
  - inversion Hnd as [|? ? Hk0 Hnd']; subst.
    destruct (IH Hnd') as [IHnew IHold].
    destruct (String.eqb_spec k0 (slug c)) as [->|Hne]; simpl.
    + split; [tauto|]. intros _. f_equal.
      assert (Hrest : forall l : ValidatorRegistry.validators_t,
                 ~ In (slug c) (dict_keys l) ->
                 List.map (fun kv => (fst kv, title (snd kv))) l =
                 List.map (fun p => if String.eqb (fst p) (slug c)
                                    then (fst p, title c) else p)
                   (List.map (fun kv => (fst kv, title (snd kv))) l)).
      { induction l as [|[k1 c1] l IHl]; simpl; [reflexivity|].
        intros Hn. destruct (String.eqb_spec k1 (slug c)); [tauto|].
        f_equal. apply IHl. tauto. }
      now apply Hrest.
    + split.
      * intros Hn. f_equal. apply IHnew. tauto.
      * intros [E|Hin]; [congruence|]. f_equal. now apply IHold.
Qed.

Lemma get_choices_registration_order_witness :
  ValidatorRegistry.get_choices
    (snd (ValidatorRegistry.register
            {| cls_name := "Pattern"; title := "Pattern"; slug := "regex";
               get_kwargs_slug := "regex";
               init_signature := sig_self_kwargs;
               init_body := RegexValidator.init_body;
               validate_kwargs_body := RegexValidator.validate_kwargs_body |}
            (validators module_loaded)))
  = [("regex", "Pattern"); ("range", "Range"); ("choice", "Choice");
     ("boolean", "Boolean"); ("multiple_choice", "Multiple Choice")].
Proof.
  refine (proj2 (get_choices_registration_order (validators module_loaded)
                   _ _) _).
  - repeat constructor; simpl; intuition discriminate.
  - simpl. auto.
Defined.



(** ** Construction: what each built-in accepts *)

Lemma initialize_from_kwargs_ok cls kw inst :
  dict_mem kw "cls" = false -> dict_mem kw "self" = false ->
  validate_kwargs_body cls kw = Return tt ->
  ValidatorBase.construct cls kw = Return inst ->
  ValidatorBase.initialize_from_kwargs cls kw = Return inst.
Proof.
  intros Hcls Hself Hv Hc.
  rewrite initialize_from_kwargs_eq, Hcls, call_validate_kwargs_eq, Hself, Hv.
  simpl. now rewrite Hc.
Qed.

Lemma initialize_from_kwargs_rejected cls kw e :
  dict_mem kw "cls" = false -> dict_mem kw "self" = false ->
  validate_kwargs_body cls kw = Raise e ->
  ValidatorBase.suppressed e = false ->
  ValidatorBase.initialize_from_kwargs cls kw = Raise e.
Proof.
  intros Hcls Hself Hv He.
  rewrite initialize_from_kwargs_eq, Hcls, call_validate_kwargs_eq, Hself, Hv.
  simpl. now rewrite He.
Qed.

(** A constructor that takes its receiver and [**kwargs] runs its body on the
    whole mapping. *)
Lemma construct_receiver_only cls kw k :
  init_signature cls = {| sig_params := ["self"]; sig_var_keyword := Some k |} ->
  dict_mem kw "self" = false ->
  ValidatorBase.construct cls kw = init_body cls [] kw.
Proof.
  intros E Hself. unfold ValidatorBase.construct, py_call.
  now rewrite E, bind_arguments_receiver_only, Hself.
Qed.

Lemma filter_all (A : Type) (f : A -> bool) (l : list A) :
  (forall x, In x l -> f x = true) -> filter f l = l.
Proof.
  induction l as [|a l IH]; simpl; intros H; [reflexivity|].
  rewrite (H a) by auto. f_equal. apply IH. auto.
Qed.

Lemma filter_none (A : Type) (f : A -> bool) (l : list A) :
  (forall x, In x l -> f x = false) -> filter f l = [].
Proof.
  induction l as [|a l IH]; simpl; intros H; [reflexivity|].
  rewrite (H a) by auto. apply IH. auto.
Qed.

(** X4: [RegexValidator] is built exactly from a [pattern] that is a
    non-empty string, whatever other keys the mapping holds, and the instance
    keeps that pattern; a pattern that is missing, empty or not a string draws
    the pattern-is-required [ValidationError]. *)
Theorem regex_configuration (kwargs : kwargs_t) :
  dict_mem kwargs "cls" = false -> dict_mem kwargs "self" = false ->
  (forall p, dict_get kwargs "pattern" = Some (PyStr p) -> p <> "" ->
     ValidatorBase.initialize_from_kwargs RegexValidator_class kwargs
     = Return (RegexInstance (PyStr p))) /\
  ((forall p, dict_get kwargs "pattern" = Some (PyStr p) -> p = "") ->
   ValidatorBase.initialize_from_kwargs RegexValidator_class kwargs
   = Raise (ValidationError "Pattern is required" [])).
Proof.
  intros Hcls Hself. split.
  - intros p Hp Hne. apply initialize_from_kwargs_ok; auto.
    + class_body. unfold RegexValidator.validate_kwargs_body, kwargs_get.
      unfold RegexValidator._kwargs_slug. rewrite Hp.
      destruct p; [contradiction | reflexivity].
    + rewrite (construct_receiver_only _ _ "kwargs") by auto. simpl.
      unfold RegexValidator.init_body, kwargs_get, RegexValidator._kwargs_slug.
      now rewrite Hp.
  - intros Hbad. apply initialize_from_kwargs_rejected; auto.
    class_body. unfold RegexValidator.validate_kwargs_body, kwargs_get.
    unfold RegexValidator._kwargs_slug.
    destruct (dict_get kwargs "pattern") as [[| | | |p| |]|]; try reflexivity;
      try (simpl; now rewrite andb_false_r).
    now rewrite (Hbad p eq_refl).
Qed.

Lemma regex_configuration_witness :
  ValidatorBase.initialize_from_kwargs RegexValidator_class
    [("pattern", PyStr "[0-9]+"); ("flags", PyInt 2)]
  = Return (RegexInstance (PyStr "[0-9]+")) /\
  ValidatorBase.initialize_from_kwargs RegexValidator_class
    [("pattern", PyInt 7)]
  = Raise (ValidationError "Pattern is required" []).
Proof.
  split.
  - apply (proj1 (regex_configuration
                    [("pattern", PyStr "[0-9]+"); ("flags", PyInt 2)]
                    eq_refl eq_refl) "[0-9]+"); [reflexivity | discriminate].
  - apply (proj2 (regex_configuration [("pattern", PyInt 7)] eq_refl eq_refl)).
    intros p Hp. discriminate Hp.
Defined.



(** The two [validate_kwargs] of the choice validators have one body; it
    passes a non-empty list. *)
Lemma choices_validate_kwargs (kwargs : kwargs_t) :
  ChoiceValidator.validate_kwargs_body kwargs
  = MultipleChoiceValidator.validate_kwargs_body kwargs /\
  (forall x l, dict_get kwargs "choices" = Some (PyList (x :: l)) ->
     ChoiceValidator.validate_kwargs_body kwargs = Return tt) /\
  (truthy (kwargs_get kwargs "choices") = false ->
   ChoiceValidator.validate_kwargs_body kwargs
   = Raise (ValidationError "Choices are required" [])) /\
  (truthy (kwargs_get kwargs "choices") = true ->
   isinstance_list (kwargs_get kwargs "choices") = false ->
   ChoiceValidator.validate_kwargs_body kwargs
   = Raise (ValidationError "Choices must be a list" [])).
Proof.
  unfold ChoiceValidator.validate_kwargs_body.
  split; [reflexivity | split; [|split]].
  - intros x l H. unfold kwargs_get. now rewrite H.
  - now intros ->.
  - now intros -> ->.
Qed.

(** X7: [ChoiceValidator] is built from a mapping whose only key is
    [choices], holding a non-empty list, and the instance keeps that list;
    [MultipleChoiceValidator], whose constructor takes [**kwargs], is built
    from the same list whatever other keys come with it. *)
Theorem choices_construction (kwargs : kwargs_t) (x : pyval) (l : list pyval) :
  dict_get kwargs "choices" = Some (PyList (x :: l)) ->
  ((forall k, In k (dict_keys kwargs) -> k = "choices") ->
   ValidatorBase.initialize_from_kwargs ChoiceValidator_class kwargs
   = Return (ChoiceInstance (PyList (x :: l)))) /\
  (dict_mem kwargs "cls" = false -> dict_mem kwargs "self" = false ->
   ValidatorBase.initialize_from_kwargs MultipleChoiceValidator_class kwargs
   = Return (MultipleChoiceInstance (PyList (x :: l)))).
Proof.
  intros Hch. split.
  - intros Honly.
    assert (Hcls : dict_mem kwargs "cls" = false).
    { apply dict_mem_false. intros H. apply Honly in H. discriminate. }
    assert (Hself : dict_mem kwargs "self" = false).
    { apply dict_mem_false. intros H. apply Honly in H. discriminate. }
    assert (Hkeys : forall kv, In kv kwargs ->
                      mem_string (fst kv) ["choices"] = true).
    { intros kv Hin. rewrite (Honly (fst kv)); [reflexivity|].
      apply in_map_iff. now exists kv. }
    apply initialize_from_kwargs_ok; auto.
    + apply choices_validate_kwargs with (x := x) (l := l). exact Hch.
    + assert (Hextra : filter (fun kv : string * pyval =>
                                 negb (mem_string (fst kv) ["choices"])) kwargs
                       = []).
      { apply filter_none. intros kv Hin. now rewrite (Hkeys kv Hin). }
      assert (Hnamed : filter (fun kv : string * pyval =>
                                 mem_string (fst kv) ["choices"]) kwargs
                       = kwargs) by (now apply filter_all).
      unfold ValidatorBase.construct, py_call, bind_arguments. simpl.
      simpl in Hextra, Hnamed.
      rewrite Hself. unfold dict_mem at 1. rewrite Hch. simpl.
      rewrite Hextra, Hnamed. simpl.
      unfold ChoiceValidator.init_body, kwargs_get. now rewrite Hch.
  - intros Hcls Hself. apply initialize_from_kwargs_ok; auto.
    + class_body. rewrite <- (proj1 (choices_validate_kwargs kwargs)).
      apply choices_validate_kwargs with (x := x) (l := l). exact Hch.
    + rewrite (construct_receiver_only _ _ "kwargs") by auto. simpl.
      unfold MultipleChoiceValidator.init_body, kwargs_get_default.
      unfold MultipleChoiceValidator._kwargs_slug. now rewrite Hch.
Qed.

Lemma choices_construction_witness :
  ValidatorBase.initialize_from_kwargs ChoiceValidator_class
    [("choices", PyList [PyStr "Red"; PyStr "Blue"])]
  = Return (ChoiceInstance (PyList [PyStr "Red"; PyStr "Blue"])) /\
  ValidatorBase.initialize_from_kwargs MultipleChoiceValidator_class
    [("choices", PyList [PyStr "Red"; PyStr "Blue"]); ("extra", PyInt 1)]
  = Return (MultipleChoiceInstance (PyList [PyStr "Red"; PyStr "Blue"])).
Proof.
  split.
  - apply (proj1 (choices_construction
                    [("choices", PyList [PyStr "Red"; PyStr "Blue"])]
                    (PyStr "Red") [PyStr "Blue"] eq_refl)).
    intros k [<-|[]]. reflexivity.
  - apply (proj2 (choices_construction
                    [("choices", PyList [PyStr "Red"; PyStr "Blue"]);
                     ("extra", PyInt 1)]
                    (PyStr "Red") [PyStr "Blue"] eq_refl)); reflexivity.
Defined.

(** X8: [BooleanValidator] needs no configuration: it is built from every
    mapping that does not use a receiver's name as a key. *)
Theorem boolean_construction (kwargs : kwargs_t) :
  dict_mem kwargs "cls" = false -> dict_mem kwargs "self" = false ->
  ValidatorBase.initialize_from_kwargs BooleanValidator_class kwargs
  = Return BooleanInstance.
Proof.
  intros Hcls Hself. apply initialize_from_kwargs_ok; auto.
  now rewrite (construct_receiver_only _ _ "validator_kwargs").
Qed.

Lemma boolean_construction_witness :
  ValidatorBase.initialize_from_kwargs BooleanValidator_class
    [("choices", PyList []); ("pattern", PyNone)]
  = Return BooleanInstance.
Proof.
  apply (boolean_construction [("choices", PyList []); ("pattern", PyNone)]);
    reflexivity.
Defined.

(** X9: a mapping with the key [cls] or the key [self] cannot configure any
    validator class: the key collides with the receiver of
    [initialize_from_kwargs] or of [validate_kwargs], and the [TypeError] of
    the call escapes. *)
Theorem reserved_key_TypeError (cls : validator_class) (kwargs : kwargs_t) :
  In "cls" (dict_keys kwargs) \/ In "self" (dict_keys kwargs) ->
  ValidatorBase.initialize_from_kwargs cls kwargs = Raise TypeError.
Proof.
  intros H. rewrite initialize_from_kwargs_eq, call_validate_kwargs_eq.
  destruct (dict_mem kwargs "cls") eqn:Hcls; [reflexivity|].
  destruct (dict_mem kwargs "self") eqn:Hself; [reflexivity|].
  apply dict_mem_false in Hcls, Hself. tauto.
Qed.

Lemma reserved_key_TypeError_witness :
  ValidatorBase.initialize_from_kwargs BooleanValidator_class
    [("self", PyInt 1)] = Raise TypeError.
Proof.
  apply (reserved_key_TypeError BooleanValidator_class [("self", PyInt 1)]).
  right. simpl. auto.
Defined.

(** ** Where the uniform error can come from *)






(** ** RangeValidator: integer bounds *)

Lemma compare_float_int_spec f q z :
  float_to_Q f = Some q ->
  compare_float_int f z = Some (Qcompare q (inject_Z z)).
Proof.
  unfold compare_float_int, float_to_Q.
  destruct f as [s|s| |s m e]; try discriminate.
  - intros E. injection E as <-. cbv [Qcompare Qnum Qden inject_Z].
    now rewrite !Z.mul_1_r.
  - destruct (Z.leb 0 e) eqn:He; intros E; injection E as <-.
    + destruct s; cbv [Qcompare Qnum Qden inject_Z Qopp];
        rewrite !Z.mul_1_r; try reflexivity.
      destruct (2 ^ e)%Z; reflexivity.
    + apply Z.leb_gt in He.
      assert (Hd : 0 < 2 ^ (- e)) by (apply Z.pow_pos_nonneg; lia).
      destruct s; cbv [Qcompare Qnum Qden inject_Z Qopp];
        rewrite Z2Pos.id by assumption; rewrite !Z.mul_1_r; reflexivity.
Qed.

Lemma le_val_float_int f q z :
  float_to_Q f = Some q ->
  le_val_float (PyInt z) f = Return (Qle_bool (inject_Z z) q).
Proof.
  intros Hq. unfold le_val_float. rewrite (compare_float_int_spec _ _ z Hq).
  unfold Qcompare, Qle_bool, Z.leb. f_equal.
  rewrite (Z.compare_antisym (Qnum (inject_Z z) * QDen q)
             (Qnum q * QDen (inject_Z z))).
  now destruct (Qnum (inject_Z z) * QDen q ?= Qnum q * QDen (inject_Z z))%Z.
Qed.

Lemma le_float_val_int f q z :
  float_to_Q f = Some q ->
  le_float_val f (PyInt z) = Return (Qle_bool q (inject_Z z)).
Proof.
  intros Hq. unfold le_float_val. rewrite (compare_float_int_spec _ _ z Hq).
  reflexivity.
Qed.

(** What [validate] does between two integer bounds, case by case. *)
Lemma range_validate_int_bounds lo hi value :
  RangeValidator.validate (PyInt lo) (PyInt hi) value =
  match float_of_string value with
  | Raise _ => Raise (ValidationError "Value must be an number" [])
  | Return f =>
      match float_to_Q f with
      | Some q =>
          if andb (Qle_bool (inject_Z lo) q) (Qle_bool q (inject_Z hi))
          then Return tt
          else Raise (ValidationError "Value is not in range: %s - %s"
                        [PyInt lo; PyInt hi])
      | None => Raise (ValidationError "Value is not in range: %s - %s"
                         [PyInt lo; PyInt hi])
      end
  end.
Proof.
  unfold RangeValidator.validate.
  destruct (float_of_string value) as [f|e] eqn:Hf.
  - cbv [bind]. destruct (float_to_Q f) as [q|] eqn:Hq.
    + rewrite (le_val_float_int _ _ lo Hq).
      destruct (Qle_bool (inject_Z lo) q); [|reflexivity].
      rewrite (le_float_val_int _ _ hi Hq).
      now destruct (Qle_bool q (inject_Z hi)).
    + destruct f as [s|[|]| |s m e]; try discriminate Hq; reflexivity.
  - apply float_of_string_raises in Hf. subst e. reflexivity.
Qed.





(** X13: a lower bound that is a string, as the configuration check lets
    through, makes [validate] raise a [TypeError] on every raw value that
    [float] can read: the comparison of a string with a float is not
    defined, and [validate] catches [ValueError] only. *)
Theorem range_validate_string_bound
  (s : string) (hi : pyval) (value : string) (f : spec_float) :
  float_of_string value = Return f ->
  RangeValidator.validate (PyStr s) hi value = Raise TypeError.
Proof.
  intros Hf. unfold RangeValidator.validate. now rewrite Hf.
Qed.

Lemma range_validate_string_bound_witness :
  ValidatorBase.initialize_from_kwargs RangeValidator_class
    [("range", PyDict [("min_value", PyStr "1"); ("max_value", PyStr "5")])]
  = Return (RangeInstance (PyStr "1") (PyStr "5")) /\
  RangeValidator.validate (PyStr "1") (PyStr "5") "3" = Raise TypeError.
Proof.
  split; [reflexivity|].
  apply (range_validate_string_bound "1" (PyStr "5") "3"
           (S754_finite false 6755399441055744 (-51))).
  vm_compute. reflexivity.
Defined.

(** X14: [to_value] has no handler of its own: on a raw value that [float]
    cannot read it raises [float]'s [ValueError], where [validate] raises a
    [ValidationError]. *)
Theorem range_to_value_unreadable (value : string) (e : exn) :
  float_of_string value = Raise e ->
  RangeValidator.to_value value = Raise (ValueError_float value) /\
  forall lo hi, RangeValidator.validate lo hi value
                = Raise (ValidationError "Value must be an number" []).
Proof.
  intros He. pose proof (float_of_string_raises _ _ He) as ->. split.
  - unfold RangeValidator.to_value. now rewrite He.
  - intros lo hi. unfold RangeValidator.validate. now rewrite He.
Qed.

Lemma range_to_value_unreadable_witness :
  RangeValidator.to_value "3,5" = Raise (ValueError_float "3,5").
Proof.
  apply (proj1 (range_to_value_unreadable "3,5" (ValueError_float "3,5")
                  ltac:(vm_compute; reflexivity))).
Defined.

(** X15: a raw value that [validate] accepts between integer bounds [lo] and
    [hi] is one [to_value] converts without error: to an integer [n] with
    [lo <= n <= hi], or to a float with a fractional part whose exact value
    lies between the bounds. *)
Theorem range_to_value_after_validate (lo hi : Z) (value : string) :
  RangeValidator.validate (PyInt lo) (PyInt hi) value = Return tt ->
  (exists n, RangeValidator.to_value value = Return (PyInt n) /\
             lo <= n <= hi) \/
  (exists f q, RangeValidator.to_value value = Return (PyFloat f) /\
               float_is_integer f = false /\ float_to_Q f = Some q /\
               (inject_Z lo <= q /\ q <= inject_Z hi)%Q).
Proof.
  rewrite range_validate_int_bounds.
  destruct (float_of_string value) as [f|e] eqn:Hf; [|discriminate].
  destruct (float_to_Q f) as [q|] eqn:Hq; [|discriminate].
  destruct (andb _ _) eqn:Hb; [|discriminate]. intros _.
  apply andb_true_iff in Hb as [Hlo Hhi].
  apply Qle_bool_iff in Hlo, Hhi.
  unfold RangeValidator.to_value. rewrite Hf. cbv [bind].
  destruct (float_is_integer f) eqn:Hint.
  - left. destruct (int_of_integral_float f Hint) as (n & q' & Hn & Hq' & Heq).
    rewrite Hq in Hq'. injection Hq' as <-.
    exists n. rewrite Hn. split; [reflexivity|].
    rewrite Heq in Hlo, Hhi. rewrite <- !Zle_Qle in *. lia.
  - right. exists f, q. auto.
Qed.

Lemma range_to_value_after_validate_witness :
  (exists n, RangeValidator.to_value "2e0" = Return (PyInt n) /\ 1 <= n <= 5) \/
  (exists f q, RangeValidator.to_value "2e0" = Return (PyFloat f) /\
               float_is_integer f = false /\ float_to_Q f = Some q /\
               (inject_Z 1 <= q /\ q <= inject_Z 5)%Q).
Proof.
  apply (range_to_value_after_validate 1 5 "2e0").
  vm_compute. reflexivity.
Defined.

(** ** ChoiceValidator: values *)

Lemma in_map_lower_strings x (cs : list string) :
  in_map_lower x (List.map PyStr cs)
  = Return (existsb (fun c => String.eqb x (lower c)) cs).
Proof.
  induction cs as [|c cs IH]; simpl; [reflexivity|].
  destruct (String.eqb x (lower c)); [reflexivity | exact IH].
Qed.

Lemma strings_of_strings (cs : list string) :
  strings_of (List.map PyStr cs) = Return cs.
Proof.
  induction cs as [|c cs IH]; simpl; [reflexivity|]. now rewrite IH.
Qed.

Lemma existsb_lower_In x (cs : list string) :
  existsb (fun c => String.eqb x (lower c)) cs = true <->
  In x (List.map lower cs).
Proof.
  rewrite existsb_exists, in_map_iff. split.
  - intros (c & Hin & E). apply String.eqb_eq in E. now exists c.
  - intros (c & E & Hin). exists c. split; [assumption|].
    apply String.eqb_eq. congruence.
Qed.

(** X16: with a list of strings as choices, [ChoiceValidator.validate]
    accepts a raw value exactly when its lowercase form is the lowercase form
    of one of the choices; otherwise the [ValidationError] carries the choices
    as configured, joined with a comma and a space. *)
Theorem choice_validate_case_insensitive (cs : list string) (value : string) :
  (ChoiceValidator.validate (PyList (List.map PyStr cs)) value = Return tt <->
   In (lower value) (List.map lower cs)) /\
  (~ In (lower value) (List.map lower cs) ->
   ChoiceValidator.validate (PyList (List.map PyStr cs)) value
   = Raise (ValidationError "Value is not in choices. Valid choices are: %s"
              [PyStr (join ", " cs)])).
Proof.
  unfold ChoiceValidator.validate, py_join. cbv [iter_values bind].
  rewrite in_map_lower_strings, strings_of_strings.
  rewrite <- existsb_lower_In.
  destruct (existsb _ cs); simpl.
  - split; [tauto | intros H; now destruct H].
  - split; [split; discriminate | reflexivity].
Qed.

Lemma choice_validate_case_insensitive_witness :
  ChoiceValidator.validate (PyList [PyStr "Red"; PyStr "Blue"]) "bLUE"
  = Return tt /\
  ChoiceValidator.validate (PyList [PyStr "Red"; PyStr "Blue"]) "green"
  = Raise (ValidationError "Value is not in choices. Valid choices are: %s"
             [PyStr "Red, Blue"]).
Proof.
  destruct (choice_validate_case_insensitive ["Red"; "Blue"] "bLUE") as [H _].
  destruct (choice_validate_case_insensitive ["Red"; "Blue"] "green") as [_ H'].
  split.
  - apply H. simpl. auto.
  - apply H'. simpl. intuition discriminate.
Defined.

(** X17: the items of [choices] are lowered one by one until one equals the
    lowered raw value.  So a raw value that matches a choice standing before
    the first item that is not a string is accepted, and every other raw value
    draws the [TypeError] of [str.lower]: the configuration check accepts such
    a list all the same. *)
Theorem choice_validate_non_string_item
  (before : list string) (item : pyval) (rest : list pyval) (value : string) :
  isinstance_str item = false ->
  ChoiceValidator.validate_kwargs_body
    [("choices", PyList (List.map PyStr before ++ item :: rest))] = Return tt /\
  (In (lower value) (List.map lower before) ->
   ChoiceValidator.validate (PyList (List.map PyStr before ++ item :: rest)) value
   = Return tt) /\
  (~ In (lower value) (List.map lower before) ->
   ChoiceValidator.validate (PyList (List.map PyStr before ++ item :: rest)) value
   = Raise TypeError).
Proof.
  intros Hitem.
  assert (Hscan : in_map_lower (lower value)
                    (List.map PyStr before ++ item :: rest)
                  = if existsb (fun c => String.eqb (lower value) (lower c)) before
                    then Return true else Raise TypeError).
  { induction before as [|c before IH]; simpl.
    - destruct item; try reflexivity. discriminate Hitem.
    - destruct (String.eqb (lower value) (lower c)); [reflexivity | exact IH]. }
  split; [|split].
  - destruct before; reflexivity.
  - intros Hin. apply existsb_lower_In in Hin.
    unfold ChoiceValidator.validate. cbv [iter_values bind].
    now rewrite Hscan, Hin.
  - intros Hn. unfold ChoiceValidator.validate. cbv [iter_values bind].
    rewrite Hscan.
    destruct (existsb _ before) eqn:E; [|reflexivity].
    apply existsb_lower_In in E. contradiction.
Qed.

Lemma choice_validate_non_string_item_witness :
  ChoiceValidator.validate (PyList [PyStr "1"; PyInt 2]) "1" = Return tt /\
  ChoiceValidator.validate (PyList [PyStr "1"; PyInt 2]) "2" = Raise TypeError.
Proof.
  destruct (choice_validate_non_string_item ["1"] (PyInt 2) [] "1" eq_refl)
    as (_ & H & _).
  destruct (choice_validate_non_string_item ["1"] (PyInt 2) [] "2" eq_refl)
    as (_ & _ & H').
  split.
  - apply H. simpl. auto.
  - apply H'. simpl. intuition discriminate.
Defined.

(** ** RegexValidator: patterns *)

(** X18: the configuration check does not compile the pattern: a pattern
    that begins with [*] is accepted by [initialize_from_kwargs], and the
    validator built from it raises [re.error] on every raw value. *)
Theorem regex_pattern_checked_late (rest value : string) :
  ValidatorBase.initialize_from_kwargs RegexValidator_class
    [("pattern", PyStr (String "*" rest))]
  = Return (RegexInstance (PyStr (String "*" rest))) /\
  validate (RegexInstance (PyStr (String "*" rest))) value
  = Some (Raise ReError).
Proof. split; reflexivity. Qed.

Lemma append_empty_r (s : string) : (s ++ "")%string = s.
Proof. induction s as [|c s IH]; simpl; congruence. Qed.

(** Without [$], what follows the matched part plays no role. *)
Lemma Matches_rest_irrelevant r bol w rest :
  Matches r bol w rest ->
  eol_free r = true -> forall rest', Matches r bol w rest'.
Proof.
  induction 1; simpl; intros Hfree rest'; try discriminate;
    try (now constructor).
  - apply andb_true_iff in Hfree as [H1 H2].
    apply (@MSeq r1 r2 bol w1 w2 rest'); auto.
  - apply andb_true_iff in Hfree as [H1 H2]. apply MAltL. auto.
  - apply andb_true_iff in Hfree as [H1 H2]. apply MAltR. auto.
  - apply (@MStarCons r bol w1 w2 rest'); auto.
Qed.

Lemma push_item_eol_free cur last :
  eol_free cur = true -> item_eol_free last = true ->
  eol_free (push_item cur last) = true.
Proof. destruct last; simpl; intros -> H; auto. Qed.

Lemma close_branch_eol_free alts r :
  alts_eol_free alts = true -> eol_free r = true ->
  eol_free (close_branch alts r) = true.
Proof. destruct alts; simpl; intros H ->; auto. now rewrite H. Qed.

(** A pattern without the character [$] compiles to an expression without
    [$]. *)
Lemma parse_eol_free s : forall alts cur last r,
  mentions "$" s = false ->
  alts_eol_free alts = true -> eol_free cur = true ->
  item_eol_free last = true ->
  parse s alts cur last = Some (Return r) -> eol_free r = true.
Proof.
  induction s as [|c s IH]; intros alts cur last r Hm Ha Hc Hl; simpl.
  - intros E. injection E as <-.
    now apply close_branch_eol_free, push_item_eol_free.
  - simpl in Hm. apply orb_false_iff in Hm as [Hdollar Hm].
    pose proof (push_item_eol_free cur last Hc Hl) as Hp.
    pose proof (close_branch_eol_free alts _ Ha Hp) as Hcb.
    destruct (outside_fragment c); [discriminate|].
    destruct (Ascii.eqb c "|"); [now apply IH|].
    destruct (Ascii.eqb c "^"); [now apply IH|].
    rewrite Hdollar.
    destruct (Ascii.eqb c "."); [now apply IH|].
    destruct (Ascii.eqb c "*");
      [destruct last; try discriminate; apply IH; auto|].
    destruct (Ascii.eqb c "+");
      [destruct last; try discriminate; apply IH; simpl in *; auto;
       now rewrite Hl|].
    destruct (Ascii.eqb c "?");
      [destruct last; try discriminate; apply IH; simpl in *; auto;
       now rewrite Hl|].
    now apply IH.
Qed.

Lemma regex_validate_accepts pattern value :
  RegexValidator.validate (PyStr pattern) value = Some (Return tt) <->
  exists r, re_compile pattern = Some (Return r) /\
            match_here true r value = true.
Proof.
  unfold RegexValidator.validate, re_match.
  destruct (re_compile pattern) as [[r|e]|].
  - destruct (match_here true r value) eqn:E; simpl.
    + split; [intros _; now exists r | reflexivity].
    + split; [discriminate|]. intros (r' & Hr & Hm). congruence.
  - split; [discriminate | intros (r & Hr & _); discriminate].
  - split; [discriminate | intros (r & Hr & _); discriminate].
Qed.

(** X19: a pattern without [$] looks at a prefix only: when it accepts a raw
    value it accepts that value followed by anything. *)
Theorem regex_accepts_extensions (pattern value extra : string) :
  mentions "$" pattern = false ->
  RegexValidator.validate (PyStr pattern) value = Some (Return tt) ->
  RegexValidator.validate (PyStr pattern) (value ++ extra) = Some (Return tt).
Proof.
  intros Hm Hv. apply regex_validate_accepts in Hv as (r & Hr & Hmatch).
  apply regex_validate_accepts. exists r. split; [assumption|].
  apply match_here_spec in Hmatch as (w & rest & -> & HM).
  apply match_here_spec. exists w, (rest ++ extra)%string.
  split; [apply append_assoc|].
  apply Matches_rest_irrelevant with (rest := rest); [assumption|].
  apply (parse_eol_free pattern None Eps NoItem); auto.
Qed.

Lemma regex_accepts_extensions_witness :
  RegexValidator.validate (PyStr "^a.b?") "axb and more" = Some (Return tt).
Proof.
  apply (regex_accepts_extensions "^a.b?" "ax" "b and more");
    reflexivity.
Defined.

Lemma special_false c :
  special c = false ->
  outside_fragment c = false /\
  Ascii.eqb c "|" = false /\ Ascii.eqb c "^" = false /\
  Ascii.eqb c "$" = false /\ Ascii.eqb c "." = false /\
  Ascii.eqb c "*" = false /\ Ascii.eqb c "+" = false /\
  Ascii.eqb c "?" = false.
Proof.
  unfold special. simpl existsb. intros H.
  repeat (apply orb_false_iff in H as [? H]). auto 10.
Qed.

(** A plain pattern compiles to the chain of its characters. *)
Lemma parse_plain s : forall alts cur last,
  plain s = true ->
  parse s alts cur last
  = Some (Return (close_branch alts (literal_chain (push_item cur last) s))).
Proof.
  induction s as [|c s IH]; intros alts cur last Hp; [reflexivity|].
  simpl in Hp. apply andb_true_iff in Hp as [Hc Hs].
  apply negb_true_iff, special_false in Hc
    as (H0 & H1 & H2 & H3 & H4 & H5 & H6 & H7).
  simpl. rewrite H0, H1, H2, H3, H4, H5, H6, H7.
  now rewrite IH.
Qed.

Lemma Matches_Seq_Chr r c bol w rest :
  Matches (Seq r (Chr c)) bol w rest <->
  exists w0, w = (w0 ++ String c "")%string /\ Matches r bol w0 (String c rest).
Proof.
  split.
  - intros H. inversion H as [| | | | |? ? ? w1 w2 ? H1 H2| | | |]; subst.
    inversion H2; subst. now exists w1.
  - intros (w0 & -> & H0). apply (@MSeq r (Chr c) bol w0 (String c "") rest).
    + exact H0.
    + constructor.
Qed.

Lemma Matches_literal_chain s : forall r bol w rest,
  Matches (literal_chain r s) bol w rest <->
  exists w0, w = (w0 ++ s)%string /\ Matches r bol w0 (s ++ rest).
Proof.
  induction s as [|c s IH]; intros r bol w rest; simpl.
  - split.
    + intros H. exists w. now rewrite append_empty_r.
    + intros (w0 & -> & H). now rewrite append_empty_r.
  - rewrite IH. split.
    + intros (w1 & -> & H). apply Matches_Seq_Chr in H as (w0 & -> & H).
      exists w0. split; [|exact H]. now rewrite append_assoc.
    + intros (w0 & -> & H). exists (w0 ++ String c "")%string. split.
      * now rewrite append_assoc.
      * apply Matches_Seq_Chr. now exists w0.
Qed.

(** X20: for a pattern of ordinary characters only, [validate] is a
    starts-with test: a raw value is accepted exactly when it begins with the
    pattern, and draws the [ValidationError] otherwise. *)
Theorem regex_plain_pattern_is_prefix_test (pattern value : string) :
  plain pattern = true ->
  (RegexValidator.validate (PyStr pattern) value = Some (Return tt) <->
   exists rest, value = (pattern ++ rest)%string) /\
  ((forall rest, value <> (pattern ++ rest)%string) ->
   RegexValidator.validate (PyStr pattern) value
   = Some (Raise (ValidationError "Value does not match regex" []))).
Proof.
  intros Hp.
  assert (Hc : re_compile pattern = Some (Return (literal_chain Eps pattern)))
    by (unfold re_compile; now rewrite parse_plain).
  assert (Hm : match_here true (literal_chain Eps pattern) value = true <->
               exists rest, value = (pattern ++ rest)%string).
  { rewrite match_here_spec. split.
    - intros (w & rest & -> & H).
      apply Matches_literal_chain in H as (w0 & -> & H0).
      inversion H0; subst. now exists rest.
    - intros (rest & ->). exists pattern, rest. split; [reflexivity|].
      apply Matches_literal_chain. exists ""%string. split; [reflexivity|].
      constructor. }
  split.
  - rewrite regex_validate_accepts, <- Hm. split.
    + intros (r & Hr & H). congruence.
    + intros H. now exists (literal_chain Eps pattern).
  - intros Hn. unfold RegexValidator.validate, re_match. rewrite Hc.
    destruct (match_here true _ value) eqn:E; [|reflexivity].
    destruct (proj1 Hm eq_refl) as (rest & ->). now destruct (Hn rest).
Qed.

Lemma regex_plain_pattern_is_prefix_test_witness :
  RegexValidator.validate (PyStr "SKU-") "SKU-0042" = Some (Return tt) /\
  RegexValidator.validate (PyStr "SKU-") "sku-0042"
  = Some (Raise (ValidationError "Value does not match regex" [])).
Proof.
  destruct (regex_plain_pattern_is_prefix_test "SKU-" "SKU-0042" eq_refl)
    as [H _].
  destruct (regex_plain_pattern_is_prefix_test "SKU-" "sku-0042" eq_refl)
    as [_ H'].
  split.
  - apply H. now exists "0042".
  - apply H'. intros rest E. discriminate E.
Defined.
